(** * Smart Delivery: the checkout flow, the admin console and the engine contract

    A shallow embedding of the two React front ends of the repository
    (the customer checkout flow [frontend/src/App.jsx] and the admin
    settings console) together with the two engine operations that the
    design document specifies but whose code lives in the backend.

    React state is modelled by explicit state passing: a handler is a
    function from the component state (and from what the network answers)
    to the requests it issues and the next component state. *)

From Stdlib Require Import ZArith String Ascii List Floats Reals Lra Lia.
From stdpp Require Import base option list strings pretty gmap sorting.

Local Set Warnings "-register-all,-inexact-float".

Local Open Scope string_scope.
Local Open Scope Z_scope.

(** ** JavaScript values *)

(** A JavaScript number as these programs meet it: NaN, a double with an
    integral value (quantities, weekdays, epoch milliseconds), or any other
    double, carried as it is (coordinates, rates). *)
Inductive number : Type :=
| NaN
| Int (z : Z)
| Dbl (f : float).

(** A JSON document: what [JSON.parse] returns and [JSON.stringify] denotes.
    An object keeps its fields in insertion order. *)
Inductive json : Type :=
| JNull
| JBool (b : bool)
| JNum (n : number)
| JStr (s : string)
| JArr (items : list json)
| JObj (fields : list (string * json)).

(** A JavaScript value read out of JSON data: [None] is [undefined]. *)
Definition value : Type := option json.

(** The completion of an operation that may throw; only the [message] of
    the thrown error is kept, which is all the handlers read. *)
Inductive result (A : Type) : Type :=
| Ok (a : A)
| Throw (message : string).
Arguments Ok {A} a.
Arguments Throw {A} message.

(** What the handlers take from the JavaScript runtime and the build. *)
Class Runtime : Type := {
  (** [import.meta.env.VITE_API_BASE] *)
  VITE_API_BASE : option string;
  (** [Number(value)] on a string *)
  Number : string -> number;
  (** [String(n)] for a number, as a template literal renders it *)
  Number_toString : number -> string;
  (** [JSON.parse(text)]: the document, or the SyntaxError's message *)
  JSON_parse : string -> result json;
  (** the message of the TypeError raised by reading property [k] of [null] *)
  null_property_message : string -> string
}.

(** An HTTP request as [fetch] receives it; [body] is the document that the
    [JSON.stringify] argument denotes. *)
Record Request : Type := {
  method : string;
  url : string;
  body : option json
}.

(** [const API_BASE = import.meta.env.VITE_API_BASE || "http://localhost:8020"] *)
Definition API_BASE `{Runtime} : string :=
  match VITE_API_BASE with
  | Some s => if String.eqb s "" then "http://localhost:8020" else s
  | None => "http://localhost:8020"
  end.

(** [JSON.stringify] of a number: NaN and the infinities have no JSON form
    and become [null]. *)
Definition number_json (n : number) : json :=
  match n with
  | NaN => JNull
  | Int _ => JNum n
  | Dbl f => if PrimFloat.is_nan f || PrimFloat.is_infinity f then JNull else JNum n
  end.

(** [JSON.stringify] of an object literal: a property whose value is
    [undefined] is left out. *)
Definition stringify_object (props : list (string * value)) : json :=
  JObj (omap (fun p => match snd p with
                       | Some v => Some (fst p, v)
                       | None => None
                       end) props).

(** ** Built-in functions with a fixed meaning *)

(** The integer a double holds after an integer result of JavaScript
    arithmetic is rounded to it: an integer of magnitude up to 2^53 is a
    double itself; a larger one keeps its 53 leading bits, rounded to
    nearest, ties to the even mantissa. (Past the largest double the result
    is Infinity: [times] and [plus] say so, adding or taking one cannot get
    there from a double, and [parseInt] notes what it leaves out.) *)
Definition round_double (z : Z) : Z :=
  let a := Z.abs z in
  if a <=? 9007199254740992 then z
  else
    let e := Z.log2 a - 52 in
    let q := a / 2 ^ e in
    let r := a mod 2 ^ e in
    let half := 2 ^ (e - 1) in
    let q' := if (half <? r) || ((r =? half) && Z.odd q) then q + 1 else q in
    Z.sgn z * (q' * 2 ^ e).
Arguments round_double : simpl never.

(** White space as [parseInt] skips it, among the code units below 256. *)
Definition is_white_space (c : ascii) : bool :=
  let n := Z.of_nat (nat_of_ascii c) in
  ((9 <=? n)%Z && (n <=? 13)%Z || (n =? 32)%Z || (n =? 160)%Z).

Fixpoint trim_start (s : string) : string :=
  match s with
  | String c s' => if is_white_space c then trim_start s' else s
  | EmptyString => s
  end.

Definition digit_value (c : ascii) : option Z :=
  let n := Z.of_nat (nat_of_ascii c) in
  if ((48 <=? n)%Z && (n <=? 57)%Z) then Some (n - 48)%Z else None.

(** The value of the longest prefix of decimal digits of [s], after the
    digits read so far ([acc]); [None] when there is no digit at all. *)
Fixpoint digits_prefix (s : string) (acc : option Z) : option Z :=
  match s with
  | String c s' =>
      match digit_value c with
      | Some d => digits_prefix s' (Some (10 * default 0 acc + d))
      | None => acc
      end
  | EmptyString => acc
  end.

(** [parseInt(string, 10)]: leading white space, an optional sign, then the
    longest run of decimal digits, as the double nearest to their value; NaN
    when that run is empty. (Digits worth more than the largest double give
    Infinity in JavaScript; the model keeps an integer there.) *)
Definition parseInt (s : string) : number :=
  let s := trim_start s in
  let '(sign, s) :=
    match s with
    | String "-" r => (-1, r)
    | String "+" r => (1, r)
    | _ => (1, s)
    end in
  match digits_prefix s None with
  | Some m => Int (round_double (sign * m))
  | None => NaN
  end.

(** [true] when every character of [s] is a decimal digit ([s] not empty). *)
Fixpoint all_digits (s : string) : bool :=
  match s with
  | String c EmptyString => bool_decide (is_Some (digit_value c))
  | String c s' => bool_decide (is_Some (digit_value c)) && all_digits s'
  | EmptyString => false
  end.

(** A runtime to evaluate the handlers on examples. It agrees with
    JavaScript on the inputs the examples use: numbers written as plain
    digit strings, and the two error documents below. *)
Definition quoted (s : string) : string :=
  String (ascii_of_nat 34) s +:+ String (ascii_of_nat 34) "".

Definition solo_error_text : string :=
  "{" +:+ quoted "detail" +:+ ":{" +:+ quoted "error" +:+ ":"
  +:+ quoted "SOLO_MIN_UNITS_REQUIRED" +:+ "," +:+ quoted "message" +:+ ":"
  +:+ quoted "This time has no nearby deliveries. Add at least 6 items or choose a discounted time."
  +:+ "," +:+ quoted "soloMinUnits" +:+ ":6}}".

Definition solo_error_json : json :=
  JObj [ ("detail",
          JObj [ ("error", JStr "SOLO_MIN_UNITS_REQUIRED");
                 ("message",
                  JStr "This time has no nearby deliveries. Add at least 6 items or choose a discounted time.");
                 ("soloMinUnits", JNum (Int 6)) ]) ].

Definition not_found_text : string :=
  "{" +:+ quoted "detail" +:+ ":" +:+ quoted "Quote not found" +:+ "}".

Definition not_found_json : json := JObj [ ("detail", JStr "Quote not found") ].

Definition quote_text : string :=
  "{" +:+ quoted "quoteId" +:+ ":" +:+ quoted "q_9f8e7d6c" +:+ "}".

Definition quote_json : json := JObj [ ("quoteId", JStr "q_9f8e7d6c") ].

Definition sample_runtime : Runtime :=
  {| VITE_API_BASE := None;
     Number := fun s =>
       if String.eqb s "" then Int 0
       else if all_digits s then parseInt s else NaN;
     Number_toString := fun n =>
       match n with
       | Int z => pretty z
       | _ => "NaN"
       end;
     JSON_parse := fun text =>
       if String.eqb text solo_error_text then Ok solo_error_json
       else if String.eqb text not_found_text then Ok not_found_json
       else if String.eqb text quote_text then Ok quote_json
       else Throw "Unexpected token";
     null_property_message := fun k =>
       "Cannot read properties of null (reading '" +:+ k +:+ "')" |}.

Example parseInt_12 : parseInt "12" = Int 12.
Proof. reflexivity. Qed.

Example parseInt_negative : parseInt " -7px" = Int (-7).
Proof. reflexivity. Qed.

Example parseInt_fraction : parseInt "1.5" = Int 1.
Proof. reflexivity. Qed.

Example parseInt_no_digit : parseInt "abc" = NaN.
Proof. reflexivity. Qed.

Example parseInt_rounds : parseInt "9007199254740993" = Int 9007199254740992.
Proof. vm_compute. reflexivity. Qed.

Example round_double_ties_to_even :
  (round_double 9007199254740993, round_double 9007199254740995,
   round_double (300 * 9007199254740992 + 350), round_double (- 9007199254740993))
  = (9007199254740992, 9007199254740996, 300 * 9007199254740992 + 512,
     - 9007199254740992).
Proof. vm_compute. reflexivity. Qed.

Lemma round_double_exact (z : Z) :
  Z.abs z ≤ 9007199254740992 → round_double z = z.
Proof.
  intros Hz. unfold round_double.
  destruct (Z.leb_spec (Z.abs z) 9007199254740992); [reflexivity | lia].
Qed.

Lemma round_double_nonneg (z : Z) : 0 ≤ z → 0 ≤ round_double z.
Proof.
  intros Hz. unfold round_double.
  destruct (Z.leb_spec (Z.abs z) 9007199254740992); [exact Hz |].
  apply Z.mul_nonneg_nonneg; [lia |].
  assert (Hpow : 0 < 2 ^ (Z.log2 (Z.abs z) - 52)).
  { apply Z.pow_pos_nonneg; [lia |].
    assert (53 ≤ Z.log2 (Z.abs z)); [| lia].
    apply Z.log2_le_pow2; lia. }
  assert (Hq : 0 ≤ Z.abs z / 2 ^ (Z.log2 (Z.abs z) - 52))
    by (apply Z.div_pos; lia).
  apply Z.mul_nonneg_nonneg; [| lia].
  destruct ((2 ^ (Z.log2 (Z.abs z) - 52 - 1) <? Z.abs z mod 2 ^ (Z.log2 (Z.abs z) - 52))
            || (Z.abs z mod 2 ^ (Z.log2 (Z.abs z) - 52)
                =? 2 ^ (Z.log2 (Z.abs z) - 52 - 1))
               && Z.odd (Z.abs z / 2 ^ (Z.log2 (Z.abs z) - 52))); lia.
Qed.

(** * The admin settings console *)
Module Admin.

Record Weekday : Type := { value : Z; label : string }.

Definition weekdayMap : list Weekday :=
  [ {| value := 1; label := "Mon" |};
    {| value := 2; label := "Tue" |};
    {| value := 3; label := "Wed" |};
    {| value := 4; label := "Thu" |};
    {| value := 5; label := "Fri" |};
    {| value := 6; label := "Sat" |};
    {| value := 7; label := "Sun" |} ].

Record AvailabilityWindow : Type := {
  daysOfWeek : list Z;
  startTime : string;
  endTime : string
}.

(** A scoring field of the settings object holds a number, or the string an
    emptied input leaves behind. *)
Inductive fieldValue : Type :=
| FNum (x : number)
| FStr (s : string).

(** The settings object of [GET/PUT /settings]: the scoring fields by name,
    and the availability windows. *)
Record Settings : Type := {
  scalars : gmap string fieldValue;
  availability : list AvailabilityWindow
}.

Record Toast : Type := { msg : string; type : string }.

(** The [useState] cells of the console. *)
Record State : Type := {
  settings : option Settings;
  loading : bool;
  saving : bool;
  error : option string;
  toast : option Toast
}.

Definition initial : State :=
  {| settings := None; loading := false; saving := false;
     error := None; toast := None |}.

Definition setSettings (v : option Settings) (st : State) : State :=
  {| settings := v; loading := loading st; saving := saving st;
     error := error st; toast := toast st |}.

Definition setLoading (b : bool) (st : State) : State :=
  {| settings := settings st; loading := b; saving := saving st;
     error := error st; toast := toast st |}.

Definition setSaving (b : bool) (st : State) : State :=
  {| settings := settings st; loading := loading st; saving := b;
     error := error st; toast := toast st |}.

Definition setError (e : option string) (st : State) : State :=
  {| settings := settings st; loading := loading st; saving := saving st;
     error := e; toast := toast st |}.

Definition setToast (t : option Toast) (st : State) : State :=
  {| settings := settings st; loading := loading st; saving := saving st;
     error := error st; toast := t |}.

(** [showToast(msg, type)]; the timer it starts fires [clearToast] three
    seconds later. *)
Definition showToast (m ty : string) (st : State) : State :=
  setToast (Some {| msg := m; type := ty |}) st.

Definition clearToast (st : State) : State := setToast None st.

(** How a [fetch] of the settings endpoint ends. *)
Inductive fetched : Type :=
| Rejected                           (* fetch() rejects: no response *)
| NotOk (text : result string)       (* res.ok is false; res.text() *)
| OkBadJson (message : string)       (* res.ok, res.json() rejects *)
| OkJson (data : option Settings).   (* res.ok, res.json() resolves; null is None *)

Definition field_json (v : fieldValue) : json :=
  match v with
  | FNum x => number_json x
  | FStr s => JStr s
  end.

Definition window_json (w : AvailabilityWindow) : json :=
  JObj [ ("daysOfWeek", JArr (map (fun d => JNum (Int d)) (daysOfWeek w)));
         ("startTime", JStr (startTime w));
         ("endTime", JStr (endTime w)) ].

(** [JSON.stringify(settings)] *)
Definition settings_json (s : Settings) : json :=
  JObj (map (fun kv => (fst kv, field_json (snd kv))) (map_to_list (scalars s))
        ++ [ ("availability", JArr (map window_json (availability s))) ]).

Section Handlers.
Context `{Runtime}.

(** [fetchSettings], up to its first [await]. *)
Definition fetchSettings_begin (st : State) : list Request * State :=
  ([ {| method := "GET"; url := API_BASE +:+ "/settings"; body := None |} ],
   setError None (setLoading true st)).

(** [fetchSettings], from the answer on. *)
Definition fetchSettings_settle (res : fetched) (st : State) : State :=
  setLoading false
    match res with
    | OkJson data => setSettings data st
    | _ => setError (Some "Failed to load settings") st
    end.

(** [saveSettings], up to its first [await]: nothing when no settings are
    loaded, else the PUT of the settings as they are at the call. *)
Definition saveSettings_begin (st : State) : list Request * State :=
  match settings st with
  | None => ([], st)
  | Some s =>
      ([ {| method := "PUT"; url := API_BASE +:+ "/settings";
            body := Some (settings_json s) |} ],
       setError None (setSaving true st))
  end.

(** [saveSettings], from the answer on; [st] is the state the answer finds,
    which other handlers may have changed since the request left. *)
Definition saveSettings_settle (res : fetched) (st : State) : State :=
  setSaving false
    match res with
    | OkJson data =>
        showToast "Settings saved successfully ✅" "success" (setSettings data st)
    | _ =>
        showToast "Failed to save settings ❌" "error"
          (setError (Some "Failed to save settings") st)
    end.

(** [saveSettings] run without another handler in between. *)
Definition saveSettings (res : fetched) (st : State) : list Request * State :=
  match saveSettings_begin st with
  | ([], st') => ([], st')
  | (reqs, st') => (reqs, saveSettings_settle res st')
  end.

(** The updater of [updateNumber(field, value)]:
    [prev => ({ ...prev, [field]: value === "" ? "" : Number(value) })].
    [field] is one of the scoring field names the form passes. *)
Definition updateNumber (field value : string) (prev : Settings) : Settings :=
  let num := if String.eqb value "" then FStr "" else FNum (Number value) in
  {| scalars := <[field := num]> (scalars prev);
     availability := availability prev |}.

End Handlers.

(** A JavaScript [Set] of numbers: its elements in insertion order, each
    once. *)
Definition Set_add (s : list Z) (x : Z) : list Z :=
  if bool_decide (x ∈ s) then s else s ++ [x].

Definition Set_new (l : list Z) : list Z := foldl Set_add [] l.

Definition Set_has (s : list Z) (x : Z) : bool := bool_decide (x ∈ s).

Definition Set_delete (s : list Z) (x : Z) : list Z :=
  filter (fun y => y ≠ x) s.

(** [Array.from(current).sort((a, b) => a - b)] *)
Definition sort_ascending (s : list Z) : list Z := merge_sort Z.le s.

(** The updater of [toggleDay(index, dayValue)]. Reading [daysOfWeek] of
    [next[index]] throws a TypeError when [index] names no window: [None]. *)
Definition toggleDay (index : nat) (dayValue : Z) (prev : Settings)
    : option Settings :=
  let next := availability prev in
  match next !! index with
  | None => None
  | Some w =>
      let current := Set_new (daysOfWeek w) in
      let current :=
        if Set_has current dayValue then Set_delete current dayValue
        else Set_add current dayValue in
      Some {| scalars := scalars prev;
              availability :=
                <[index := {| daysOfWeek := sort_ascending current;
                              startTime := startTime w;
                              endTime := endTime w |}]> next |}
  end.

(** [addAvailability] *)
Definition addAvailability (prev : Settings) : Settings :=
  {| scalars := scalars prev;
     availability :=
       availability prev ++
       [ {| daysOfWeek := [1; 2; 3; 4; 5];
            startTime := "13:00"; endTime := "17:00" |} ] |}.

(** [removeAvailability(index)]: [next.splice(index, 1)] *)
Definition removeAvailability (index : nat) (prev : Settings) : Settings :=
  {| scalars := scalars prev;
     availability := take index (availability prev)
                     ++ drop (S index) (availability prev) |}.

(** The weekdays of a window form a set of days 1..7 kept in ascending
    order. *)
Definition days_ok (l : list Z) : Prop :=
  NoDup l ∧ Sorted Z.le l ∧ Forall (fun d => (1 ≤ d ≤ 7)%Z) l.

Definition settings_ok (s : Settings) : Prop :=
  Forall (fun w => days_ok (daysOfWeek w)) (availability s).

(** ** Properties of the console *)

Lemma Set_add_elem (s : list Z) (x d : Z) :
  d ∈ Set_add s x ↔ d ∈ s ∨ d = x.
Proof.
  unfold Set_add. case_bool_decide as Hx.
  - split; [auto | intros [Hd | ->]; assumption].
  - rewrite elem_of_app, list_elem_of_singleton. reflexivity.
Qed.

Lemma Set_add_NoDup (s : list Z) (x : Z) : NoDup s → NoDup (Set_add s x).
Proof.
  intros Hs. unfold Set_add. case_bool_decide as Hx; [assumption |].
  apply NoDup_app. split; [assumption |]. split.
  - intros y Hy Hyx. apply list_elem_of_singleton in Hyx. subst y. contradiction.
  - apply NoDup_singleton.
Qed.

Lemma foldl_Set_add_elem (l acc : list Z) (d : Z) :
  d ∈ foldl Set_add acc l ↔ d ∈ acc ∨ d ∈ l.
Proof.
  revert acc. induction l as [| x l IH]; intros acc; simpl.
  - rewrite elem_of_nil. tauto.
  - rewrite IH, Set_add_elem, elem_of_cons. tauto.
Qed.

Lemma foldl_Set_add_NoDup (l acc : list Z) :
  NoDup acc → NoDup (foldl Set_add acc l).
Proof.
  revert acc. induction l as [| x l IH]; intros acc Hacc; simpl.
  - assumption.
  - apply IH, Set_add_NoDup, Hacc.
Qed.

Lemma Set_new_elem (l : list Z) (d : Z) : d ∈ Set_new l ↔ d ∈ l.
Proof.
  unfold Set_new. rewrite foldl_Set_add_elem, elem_of_nil. tauto.
Qed.

Lemma Set_new_NoDup (l : list Z) : NoDup (Set_new l).
Proof. apply foldl_Set_add_NoDup, NoDup_nil_2. Qed.

Lemma Set_delete_elem (s : list Z) (x d : Z) :
  d ∈ Set_delete s x ↔ d ∈ s ∧ d ≠ x.
Proof. unfold Set_delete. rewrite list_elem_of_filter. tauto. Qed.

Lemma Set_delete_NoDup (s : list Z) (x : Z) : NoDup s → NoDup (Set_delete s x).
Proof. intros Hs. apply NoDup_filter, Hs. Qed.

Lemma sort_ascending_elem (s : list Z) (d : Z) : d ∈ sort_ascending s ↔ d ∈ s.
Proof. unfold sort_ascending. rewrite (merge_sort_Permutation Z.le s). reflexivity. Qed.

Lemma sort_ascending_days_ok (s : list Z) :
  NoDup s → Forall (fun d => (1 ≤ d ≤ 7)%Z) s → days_ok (sort_ascending s).
Proof.
  intros Hnd Hall. unfold days_ok, sort_ascending. split; [| split].
  - rewrite (merge_sort_Permutation Z.le s). assumption.
  - apply (Sorted_merge_sort Z.le).
  - rewrite (merge_sort_Permutation Z.le s). assumption.
Qed.

(** The set that [toggleDay] sorts: without [x] when it was there, with it
    otherwise. *)
Definition toggled (l : list Z) (x : Z) : list Z :=
  if Set_has (Set_new l) x then Set_delete (Set_new l) x
  else Set_add (Set_new l) x.

Lemma toggled_elem (l : list Z) (x d : Z) :
  d ∈ toggled l x ↔
  if bool_decide (x ∈ l) then d ∈ l ∧ d ≠ x else d ∈ l ∨ d = x.
Proof.
  unfold toggled, Set_has.
  rewrite (bool_decide_ext (x ∈ Set_new l) (x ∈ l)) by apply Set_new_elem.
  case_bool_decide.
  - rewrite Set_delete_elem, Set_new_elem. reflexivity.
  - rewrite Set_add_elem, Set_new_elem. reflexivity.
Qed.

Lemma toggled_NoDup (l : list Z) (x : Z) : NoDup (toggled l x).
Proof.
  unfold toggled. destruct (Set_has (Set_new l) x).
  - apply Set_delete_NoDup, Set_new_NoDup.
  - apply Set_add_NoDup, Set_new_NoDup.
Qed.

Lemma weekdayMap_range (x : Z) :
  x ∈ map value weekdayMap → (1 ≤ x ≤ 7)%Z.
Proof.
  simpl. rewrite !elem_of_cons, elem_of_nil. lia.
Qed.

(** C7: on settings whose windows each hold a duplicate-free ascending list
    of weekdays 1..7, [toggleDay(index, dayValue)] with a [dayValue] of the
    weekday map and the index of a window returns settings of the same kind;
    the window at [index] loses [dayValue] if it had it and gains it
    otherwise, keeps its times, and nothing else changes. *)
Theorem toggleDay_preserves_weekday_sets
    (s : Settings) (index : nat) (dayValue : Z) (w : AvailabilityWindow) :
  settings_ok s →
  dayValue ∈ map value weekdayMap →
  availability s !! index = Some w →
  ∃ s' w',
    toggleDay index dayValue s = Some s' ∧
    settings_ok s' ∧
    availability s' !! index = Some w' ∧
    days_ok (daysOfWeek w') ∧
    (∀ d, d ∈ daysOfWeek w' ↔
          if bool_decide (dayValue ∈ daysOfWeek w)
          then d ∈ daysOfWeek w ∧ d ≠ dayValue
          else d ∈ daysOfWeek w ∨ d = dayValue) ∧
    startTime w' = startTime w ∧ endTime w' = endTime w ∧
    (∀ j, j ≠ index → availability s' !! j = availability s !! j) ∧
    length (availability s') = length (availability s) ∧
    scalars s' = scalars s.
Proof.
  intros Hok Hday Hw.
  assert (Hrange : (1 ≤ dayValue ≤ 7)%Z) by (apply weekdayMap_range, Hday).
  assert (Hwok : days_ok (daysOfWeek w)).
  { unfold settings_ok in Hok. rewrite Forall_lookup in Hok. exact (Hok _ _ Hw). }
  assert (Hdays : days_ok (sort_ascending (toggled (daysOfWeek w) dayValue))).
  { apply sort_ascending_days_ok; [apply toggled_NoDup |].
    apply Forall_forall. intros d Hd. apply toggled_elem in Hd.
    destruct Hwok as (_ & _ & Hall). rewrite Forall_forall in Hall.
    case_bool_decide; [destruct Hd as [Hd _]; auto |].
    destruct Hd as [Hd | ->]; auto. }
  eexists. eexists. split.
  { unfold toggleDay. rewrite Hw. fold (toggled (daysOfWeek w) dayValue). reflexivity. }
  simpl. split; [| split; [| split; [| split; [| split; [| split; [| split; [| split]]]]]]].
  - unfold settings_ok. simpl. apply Forall_insert; [exact Hok | exact Hdays].
  - apply list_lookup_insert_eq. eapply lookup_lt_Some, Hw.
  - exact Hdays.
  - intros d. simpl. rewrite sort_ascending_elem. apply toggled_elem.
  - reflexivity.
  - reflexivity.
  - intros j Hj. apply list_lookup_insert_ne. congruence.
  - apply length_insert.
  - reflexivity.
Qed.

(** The instance of C7 on the console's default window and Saturday. *)
Lemma toggleDay_preserves_weekday_sets_witness :
  ∃ s' w',
    toggleDay 0 6
      {| scalars := ∅;
         availability := [ {| daysOfWeek := [1; 2; 3; 4; 5];
                              startTime := "13:00"; endTime := "17:00" |} ] |}
      = Some s' ∧
    settings_ok s' ∧
    availability s' !! 0%nat = Some w' ∧
    days_ok (daysOfWeek w') ∧
    (∀ d, d ∈ daysOfWeek w' ↔
          if bool_decide (6 ∈ [1; 2; 3; 4; 5])
          then d ∈ [1; 2; 3; 4; 5] ∧ d ≠ 6
          else d ∈ [1; 2; 3; 4; 5] ∨ d = 6) ∧
    startTime w' = "13:00" ∧ endTime w' = "17:00" ∧
    (∀ j, j ≠ 0%nat →
          availability s' !! j =
          [ {| daysOfWeek := [1; 2; 3; 4; 5];
               startTime := "13:00"; endTime := "17:00" |} ] !! j) ∧
    length (availability s') = 1%nat ∧
    scalars s' = ∅.
Proof.
  apply (toggleDay_preserves_weekday_sets
           {| scalars := ∅;
              availability := [ {| daysOfWeek := [1; 2; 3; 4; 5];
                                   startTime := "13:00"; endTime := "17:00" |} ] |}
           0 6
           {| daysOfWeek := [1; 2; 3; 4; 5];
              startTime := "13:00"; endTime := "17:00" |}).
  - unfold settings_ok, days_ok. simpl.
    repeat constructor; try lia; rewrite ?elem_of_cons, ?elem_of_nil; lia.
  - simpl. rewrite !elem_of_cons. lia.
  - reflexivity.
Defined.

Example toggleDay_adds :
  daysOfWeek <$> (toggleDay 0 6
     {| scalars := ∅;
        availability := [ {| daysOfWeek := [1; 2; 3; 4; 5];
                             startTime := "13:00"; endTime := "17:00" |} ] |}
     ≫= fun s' => availability s' !! 0%nat)
  = Some [1; 2; 3; 4; 5; 6].
Proof. vm_compute. reflexivity. Qed.

Example toggleDay_removes :
  daysOfWeek <$> (toggleDay 0 3
     {| scalars := ∅;
        availability := [ {| daysOfWeek := [1; 2; 3; 4; 5];
                             startTime := "13:00"; endTime := "17:00" |} ] |}
     ≫= fun s' => availability s' !! 0%nat)
  = Some [1; 2; 4; 5].
Proof. vm_compute. reflexivity. Qed.

(** An index that names no window makes the updater throw. *)
Lemma toggleDay_out_of_range (s : Settings) (index : nat) (dayValue : Z) :
  (length (availability s) ≤ index)%nat → toggleDay index dayValue s = None.
Proof.
  intros Hlen. unfold toggleDay. rewrite (lookup_ge_None_2 _ _ Hlen). reflexivity.
Qed.

(** C8: when the PUT of [saveSettings] fails (the fetch rejects, the
    response is not OK, or its body is no JSON), the settings the console
    holds are the ones the answer found: only [saving], [error] and [toast]
    are written. The settings are replaced by the response body exactly when
    the response is OK and parses. This holds for the answer arriving in any
    state, and for the handler run as a whole, which also leaves everything
    alone and sends nothing when no settings are loaded. *)
Theorem saveSettings_failure_keeps_settings `{Runtime}
    (res : fetched) (st : State) :
  match res with
  | OkJson data =>
      settings (saveSettings_settle res st) = data ∧
      settings (snd (saveSettings res st)) =
        match settings st with Some _ => data | None => None end
  | _ =>
      settings (saveSettings_settle res st) = settings st ∧
      loading (saveSettings_settle res st) = loading st ∧
      saving (saveSettings_settle res st) = false ∧
      error (saveSettings_settle res st) = Some "Failed to save settings" ∧
      toast (saveSettings_settle res st) =
        Some {| msg := "Failed to save settings ❌"; type := "error" |} ∧
      settings (snd (saveSettings res st)) = settings st ∧
      loading (snd (saveSettings res st)) = loading st
  end ∧
  match settings st with
  | None => saveSettings res st = ([], st)
  | Some s =>
      fst (saveSettings res st) =
        [ {| method := "PUT"; url := API_BASE +:+ "/settings";
             body := Some (settings_json s) |} ]
  end.
Proof.
  split.
  - destruct res; unfold saveSettings, saveSettings_begin;
      destruct (settings st) eqn:Hs; simpl; rewrite ?Hs; auto 10.
  - unfold saveSettings, saveSettings_begin. destruct (settings st); reflexivity.
Qed.

Lemma settings_json_field (s : Settings) (k : string) (v : json) :
  (k, v) ∈ match settings_json s with JObj fields => fields | _ => [] end →
  (∃ x, scalars s !! k = Some x ∧ v = field_json x) ∨ k = "availability".
Proof.
  simpl. rewrite elem_of_app, list_elem_of_singleton.
  intros [Hin | Heq].
  - left. apply list_elem_of_fmap in Hin as ([k' x] & Hkv & Hin).
    simpl in Hkv. injection Hkv as -> ->.
    exists x. split; [apply elem_of_map_to_list, Hin | reflexivity].
  - right. congruence.
Qed.

(** C10: [updateNumber(field, "")] stores the empty string under [field],
    and a [saveSettings] that follows sends it: the PUT body has [field]
    with the string value and with no number. For a [value] that is not
    empty the field becomes [Number(value)]. *)
Theorem updateNumber_empty_input_is_saved_as_string `{Runtime}
    (field value : string) (s : Settings) (st : State) :
  value ≠ "" →
  scalars (updateNumber field value s) !! field = Some (FNum (Number value)) ∧
  scalars (updateNumber field "" s) !! field = Some (FStr "") ∧
  ∃ fields,
    fst (saveSettings_begin (setSettings (Some (updateNumber field "" s)) st)) =
      [ {| method := "PUT"; url := API_BASE +:+ "/settings";
           body := Some (JObj fields) |} ] ∧
    (field, JStr "") ∈ fields ∧
    (∀ n, (field, JNum n) ∉ fields).
Proof.
  intros Hne. split; [| split].
  - unfold updateNumber. simpl.
    destruct (String.eqb_spec value ""); [contradiction |].
    apply lookup_insert_eq.
  - unfold updateNumber. simpl. apply lookup_insert_eq.
  - eexists. split; [reflexivity |]. split.
    + apply elem_of_app. left.
      apply (list_elem_of_fmap_2' _ _ (field, FStr "")); [| reflexivity].
      apply elem_of_map_to_list. simpl. apply lookup_insert_eq.
    + intros n Hin.
      destruct (settings_json_field (updateNumber field "" s) field (JNum n) Hin)
        as [(x & Hx & Hv) | Hav].
      * simpl in Hx. rewrite lookup_insert_eq in Hx. injection Hx as <-.
        discriminate Hv.
      * subst field. simpl in Hin.
        apply elem_of_app in Hin as [Hin | Hin].
        -- apply list_elem_of_fmap in Hin as ([k' x] & Hkv & Hin).
           simpl in Hkv. injection Hkv as <- Hx.
           apply elem_of_map_to_list in Hin. rewrite lookup_insert_eq in Hin.
           injection Hin as <-. discriminate Hx.
        -- apply list_elem_of_singleton in Hin. discriminate Hin.
Qed.

(** C10 on the field [k], typed over and then emptied. *)
Lemma updateNumber_empty_input_is_saved_as_string_witness :
  "2" ≠ "" ∧
  scalars (@updateNumber sample_runtime "k" "2"
             {| scalars := ∅; availability := [] |}) !! "k"
    = Some (FNum (@Number sample_runtime "2")) ∧
  scalars (@updateNumber sample_runtime "k" ""
             {| scalars := ∅; availability := [] |}) !! "k" = Some (FStr "") ∧
  ∃ fields,
    fst (@saveSettings_begin sample_runtime
           (setSettings (Some (@updateNumber sample_runtime "k" ""
                                 {| scalars := ∅; availability := [] |}))
              initial)) =
      [ {| method := "PUT"; url := @API_BASE sample_runtime +:+ "/settings";
           body := Some (JObj fields) |} ] ∧
    (("k", JStr "") : string * json) ∈ fields ∧
    (∀ n, (("k", JNum n) : string * json) ∉ fields).
Proof.
  split; [discriminate |].
  apply (@updateNumber_empty_input_is_saved_as_string sample_runtime
           "k" "2" {| scalars := ∅; availability := [] |} initial).
  discriminate.
Defined.

Example saveSettings_after_clearing_k :
  fst (@saveSettings_begin sample_runtime
         (setSettings
            (Some (@updateNumber sample_runtime "k" ""
                     {| scalars := {[ "k" := FNum (Int 1) ]}; availability := [] |}))
            initial))
  = [ {| method := "PUT"; url := "http://localhost:8020/settings";
         body := Some (JObj [ ("k", JStr ""); ("availability", JArr []) ]) |} ].
Proof. vm_compute. reflexivity. Qed.

(** ** Further properties of the console *)

(** [disabled={settings.availability.length === 1}] on the Remove button of
    a window. *)
Definition removeDisabled (s : Settings) : bool :=
  (length (availability s) =? 1)%nat.

Lemma sorted_set_unique (l1 l2 : list Z) :
  NoDup l1 → Sorted Z.le l1 → NoDup l2 → Sorted Z.le l2 →
  (∀ d, d ∈ l1 ↔ d ∈ l2) → l1 = l2.
Proof.
  intros Hn1 Hs1 Hn2 Hs2 Hel.
  apply (Sorted_unique Z.le); [exact Hs1 | exact Hs2 |].
  apply NoDup_Permutation; assumption.
Qed.

Lemma toggled_twice_elem (l : list Z) (x d : Z) :
  d ∈ toggled (sort_ascending (toggled l x)) x ↔ d ∈ l.
Proof.
  assert (Hx : x ∈ sort_ascending (toggled l x) ↔ x ∉ l).
  { rewrite sort_ascending_elem, toggled_elem.
    case_bool_decide; [tauto | intuition]. }
  rewrite toggled_elem.
  destruct (decide (d = x)) as [-> | Hne].
  - case_bool_decide as Hb; rewrite Hx in Hb.
    + intuition.
    + destruct (decide (x ∈ l)); intuition.
  - case_bool_decide as Hb; rewrite sort_ascending_elem, toggled_elem;
      case_bool_decide; intuition.
Qed.

(** X1: toggling a day twice gives the settings back, when the days of the
    window were a set in ascending order. *)
Theorem toggleDay_twice_restores
    (s : Settings) (index : nat) (dayValue : Z) (w : AvailabilityWindow) :
  availability s !! index = Some w →
  NoDup (daysOfWeek w) →
  Sorted Z.le (daysOfWeek w) →
  toggleDay index dayValue s ≫= toggleDay index dayValue = Some s.
Proof.
  intros Hw Hnd Hsorted.
  assert (Hlen : (index < length (availability s))%nat)
    by (eapply lookup_lt_Some, Hw).
  unfold toggleDay at 2. rewrite Hw.
  fold (toggled (daysOfWeek w) dayValue). simpl.
  unfold toggleDay. simpl.
  rewrite (list_lookup_insert_eq _ _ _ Hlen). simpl.
  fold (toggled (sort_ascending (toggled (daysOfWeek w) dayValue)) dayValue).
  rewrite list_insert_insert_eq.
  assert (Hdays : sort_ascending
                    (toggled (sort_ascending (toggled (daysOfWeek w) dayValue))
                       dayValue) = daysOfWeek w).
  { apply sorted_set_unique.
    - unfold sort_ascending. rewrite (merge_sort_Permutation Z.le).
      apply toggled_NoDup.
    - apply (Sorted_merge_sort Z.le).
    - exact Hnd.
    - exact Hsorted.
    - intros d. rewrite sort_ascending_elem. apply toggled_twice_elem. }
  rewrite Hdays. destruct w as [days st en]. simpl.
  rewrite (list_insert_id _ _ _ Hw). destruct s. reflexivity.
Qed.

Lemma toggleDay_twice_restores_witness :
  toggleDay 0 6
    {| scalars := ∅;
       availability := [ {| daysOfWeek := [1; 2; 3; 4; 5];
                            startTime := "13:00"; endTime := "17:00" |} ] |}
    ≫= toggleDay 0 6
  = Some {| scalars := ∅;
            availability := [ {| daysOfWeek := [1; 2; 3; 4; 5];
                                 startTime := "13:00"; endTime := "17:00" |} ] |}.
Proof.
  apply (toggleDay_twice_restores
           {| scalars := ∅;
              availability := [ {| daysOfWeek := [1; 2; 3; 4; 5];
                                   startTime := "13:00"; endTime := "17:00" |} ] |}
           0 6
           {| daysOfWeek := [1; 2; 3; 4; 5];
              startTime := "13:00"; endTime := "17:00" |}).
  - reflexivity.
  - simpl. repeat constructor; rewrite ?elem_of_cons, ?elem_of_nil; lia.
  - simpl. repeat constructor; lia.
Defined.

(** X2: [addAvailability] puts the window Monday to Friday, 13:00 to 17:00,
    after the windows there are, which stay as they are; the console's
    invariant on weekdays is kept. *)
Theorem addAvailability_appends_default (s : Settings) :
  length (availability (addAvailability s)) = S (length (availability s)) ∧
  availability (addAvailability s) !! length (availability s) =
    Some {| daysOfWeek := [1; 2; 3; 4; 5];
            startTime := "13:00"; endTime := "17:00" |} ∧
  (∀ j w, availability s !! j = Some w →
          availability (addAvailability s) !! j = Some w) ∧
  scalars (addAvailability s) = scalars s ∧
  (settings_ok s ↔ settings_ok (addAvailability s)).
Proof.
  unfold addAvailability. simpl. split; [| split; [| split; [| split]]].
  - rewrite length_app. simpl. lia.
  - rewrite lookup_app_r by lia. rewrite Nat.sub_diag. reflexivity.
  - intros j w Hj. apply lookup_app_l_Some, Hj.
  - reflexivity.
  - unfold settings_ok. simpl. rewrite Forall_app. split; [| tauto].
    intros Hs. split; [exact Hs |]. constructor; [| constructor].
    unfold days_ok. simpl.
    repeat constructor; try lia; rewrite ?elem_of_cons, ?elem_of_nil; lia.
Qed.

(** X3: [removeAvailability(index)] takes out the window at [index] and moves
    the later ones up by one; it keeps the weekday invariant; with an index
    past the end it changes nothing. Where the Remove button is enabled, at
    least one window is left. *)
Theorem removeAvailability_splices (s : Settings) (index : nat) :
  (∀ j, (j < index)%nat →
        availability (removeAvailability index s) !! j = availability s !! j) ∧
  (∀ j, (index ≤ j)%nat →
        availability (removeAvailability index s) !! j = availability s !! S j) ∧
  length (availability (removeAvailability index s)) =
    (if decide (index < length (availability s))%nat
     then length (availability s) - 1 else length (availability s))%nat ∧
  ((length (availability s) ≤ index)%nat → removeAvailability index s = s) ∧
  (settings_ok s → settings_ok (removeAvailability index s)) ∧
  (availability s ≠ [] → removeDisabled s = false →
   availability (removeAvailability index s) ≠ []) ∧
  scalars (removeAvailability index s) = scalars s.
Proof.
  unfold removeAvailability. simpl.
  split; [| split; [| split; [| split; [| split; [| split]]]]].
  - intros j Hj.
    destruct (decide (j < length (availability s))%nat) as [Hlt | Hge].
    + rewrite lookup_app_l by (rewrite length_take; lia).
      apply lookup_take_lt, Hj.
    + rewrite (lookup_ge_None_2 (availability s)) by lia.
      apply lookup_ge_None_2. rewrite length_app, length_take, length_drop. lia.
  - intros j Hj.
    destruct (decide (index < length (availability s))%nat) as [Hlt | Hge].
    + rewrite lookup_app_r by (rewrite length_take; lia).
      rewrite length_take, lookup_drop. f_equal. lia.
    + rewrite (lookup_ge_None_2 (availability s)) by lia.
      apply lookup_ge_None_2. rewrite length_app, length_take, length_drop. lia.
  - rewrite length_app, length_take, length_drop. case_decide; lia.
  - intros Hge. rewrite take_ge by lia. rewrite drop_ge by lia.
    rewrite app_nil_r. destruct s. reflexivity.
  - unfold settings_ok. simpl. intros Hs. apply Forall_app.
    split; [apply Forall_take, Hs | apply Forall_drop, Hs].
  - unfold removeDisabled. intros Hne Hen Hnil.
    apply (f_equal length) in Hnil.
    rewrite length_app, length_take, length_drop in Hnil. simpl in Hnil.
    apply Nat.eqb_neq in Hen.
    destruct (availability s); [contradiction | simpl in *; lia].
  - reflexivity.
Qed.

(** X4: removing the window that [addAvailability] has just added gives the
    settings back. *)
Theorem removeAvailability_undoes_addAvailability (s : Settings) :
  removeAvailability (length (availability s)) (addAvailability s) = s.
Proof.
  unfold removeAvailability, addAvailability. simpl.
  rewrite take_app_length.
  rewrite drop_ge by (rewrite length_app; simpl; lia).
  rewrite app_nil_r. destruct s. reflexivity.
Qed.

Section MoreHandlerProperties.
Context `{Runtime}.

(** X5: a refresh that fails keeps the settings the console holds and shows
    "Failed to load settings"; one that succeeds replaces them by the
    response body and leaves no error. Either way [loading] ends false, and
    [saving] and the toast are not touched. The request is a GET of
    [/settings] without a body. *)
Theorem fetchSettings_outcome (res : fetched) (st : State) :
  fst (fetchSettings_begin st) =
    [ {| method := "GET"; url := API_BASE +:+ "/settings"; body := None |} ] ∧
  loading (snd (fetchSettings_begin st)) = true ∧
  settings (snd (fetchSettings_begin st)) = settings st ∧
  loading (fetchSettings_settle res (snd (fetchSettings_begin st))) = false ∧
  saving (fetchSettings_settle res (snd (fetchSettings_begin st))) = saving st ∧
  toast (fetchSettings_settle res (snd (fetchSettings_begin st))) = toast st ∧
  match res with
  | OkJson data =>
      settings (fetchSettings_settle res (snd (fetchSettings_begin st))) = data ∧
      error (fetchSettings_settle res (snd (fetchSettings_begin st))) = None
  | _ =>
      settings (fetchSettings_settle res (snd (fetchSettings_begin st))) =
        settings st ∧
      error (fetchSettings_settle res (snd (fetchSettings_begin st))) =
        Some "Failed to load settings"
  end.
Proof.
  destruct res; simpl; auto 10.
Qed.

(** X6: [updateNumber] with the name of a scoring field, which is any key
    but [availability], writes that field alone: the other fields and the
    windows stay, a second write to the field replaces the first, writes to
    two scoring fields can be made in either order, and the edit of a day
    and the edit of a number do not interfere. (Under the key
    [availability] the code would put the number in the place of the
    windows; the form never passes that key.) *)
Theorem updateNumber_writes_one_field
    (field other value value' : string) (s : Settings) (index : nat) (dayValue : Z) :
  field ≠ "availability" →
  other ≠ "availability" →
  field ≠ other →
  scalars (updateNumber field value s) !! other = scalars s !! other ∧
  availability (updateNumber field value s) = availability s ∧
  updateNumber field value' (updateNumber field value s) =
    updateNumber field value' s ∧
  updateNumber field value (updateNumber other value' s) =
    updateNumber other value' (updateNumber field value s) ∧
  toggleDay index dayValue (updateNumber field value s) =
    updateNumber field value <$> toggleDay index dayValue s.
Proof.
  intros _ _ Hne. unfold updateNumber. simpl.
  split; [apply lookup_insert_ne, Hne |].
  split; [reflexivity |].
  split; [rewrite insert_insert_eq; reflexivity |].
  split; [rewrite (insert_insert_ne _ field other) by exact Hne; reflexivity |].
  unfold toggleDay. simpl.
  destruct (availability s !! index); reflexivity.
Qed.

End MoreHandlerProperties.

Definition sample_settings : Settings :=
  {| scalars := {[ "radiusM" := FNum (Int 3000) ]};
     availability := [ {| daysOfWeek := [1; 2; 3; 4; 5];
                          startTime := "13:00"; endTime := "17:00" |} ] |}.

Lemma updateNumber_writes_one_field_witness :
  scalars (@updateNumber sample_runtime "k" "2" sample_settings) !! "radiusM"
    = scalars sample_settings !! "radiusM" ∧
  availability (@updateNumber sample_runtime "k" "2" sample_settings)
    = availability sample_settings ∧
  @updateNumber sample_runtime "k" "3"
    (@updateNumber sample_runtime "k" "2" sample_settings) =
    @updateNumber sample_runtime "k" "3" sample_settings ∧
  @updateNumber sample_runtime "k" "2"
    (@updateNumber sample_runtime "radiusM" "3" sample_settings) =
    @updateNumber sample_runtime "radiusM" "3"
      (@updateNumber sample_runtime "k" "2" sample_settings) ∧
  toggleDay 0 6 (@updateNumber sample_runtime "k" "2" sample_settings) =
    @updateNumber sample_runtime "k" "2" <$> toggleDay 0 6 sample_settings.
Proof.
  apply (@updateNumber_writes_one_field sample_runtime "k" "radiusM" "2" "3"
           sample_settings 0 6); discriminate.
Defined.

End Admin.

(** * The customer checkout flow *)
Module Checkout.

(** ** Values at run time *)

(** [!!n] for a number: NaN and both zeros are falsy. *)
Definition truthy_number (n : number) : bool :=
  match n with
  | NaN => false
  | Int z => negb (z =? 0)%Z
  | Dbl f => negb (PrimFloat.is_nan f || PrimFloat.eqb f 0%float)
  end.

(** [!!v] for JSON data or [undefined]. *)
Definition truthy (v : value) : bool :=
  match v with
  | None | Some JNull => false
  | Some (JBool b) => b
  | Some (JNum n) => truthy_number n
  | Some (JStr s) => negb (String.eqb s "")
  | Some (JArr _) | Some (JObj _) => true
  end.

(** [a || b] *)
Definition or_else (a b : value) : value := if truthy a then a else b.

Fixpoint lookup_field {A : Type} (k : string) (fields : list (string * A)) : option A :=
  match fields with
  | [] => None
  | (k', v) :: rest => if String.eqb k' k then Some v else lookup_field k rest
  end.

(** [v?.k] on JSON data: the field of an object, the [length] of an array
    or of a string (counted in the characters of the model), and
    [undefined] for everything else, [null] and [undefined] included. *)
Definition optional_property (v : value) (k : string) : value :=
  match v with
  | Some (JObj fields) => lookup_field k fields
  | Some (JArr l) =>
      if String.eqb k "length" then Some (JNum (Int (Z.of_nat (length l)))) else None
  | Some (JStr s) =>
      if String.eqb k "length" then Some (JNum (Int (Z.of_nat (String.length s)))) else None
  | _ => None
  end.

(** [v.k] on JSON data: as [v?.k], but reading a property of [null] throws. *)
Definition property `{Runtime} (v : json) (k : string) : result value :=
  match v with
  | JNull => Throw (null_property_message k)
  | _ => Ok (optional_property (Some v) k)
  end.

(** [v === s] for a string literal [s]. *)
Definition strict_equals_string (v : value) (s : string) : bool :=
  match v with
  | Some (JStr t) => String.eqb t s
  | _ => false
  end.

(** [`${v}`]: the string a template literal makes of a value. *)
Fixpoint toString `{Runtime} (v : json) : string :=
  match v with
  | JNull => "null"
  | JBool true => "true"
  | JBool false => "false"
  | JNum n => Number_toString n
  | JStr s => s
  | JArr l =>
      String.concat ","
        (map (fun x => match x with JNull => "" | _ => toString x end) l)
  | JObj _ => "[object Object]"
  end.

Definition value_toString `{Runtime} (v : value) : string :=
  match v with
  | Some j => toString j
  | None => "undefined"
  end.

(** ** Arithmetic on quantities *)

(** [x - 1] and [x + 1] *)
Definition minus_one (x : number) : number :=
  match x with
  | NaN => NaN
  | Int z => Int (round_double (z - 1))
  | Dbl f => Dbl (f - 1)%float
  end.

Definition plus_one (x : number) : number :=
  match x with
  | NaN => NaN
  | Int z => Int (round_double (z + 1))
  | Dbl f => Dbl (f + 1)%float
  end.

(** [Math.max(0, x)]: NaN when [x] is NaN. *)
Definition Math_max_0 (x : number) : number :=
  match x with
  | NaN => NaN
  | Int z => Int (Z.max 0 z)
  | Dbl f =>
      if PrimFloat.is_nan f then NaN
      else if PrimFloat.leb f 0%float then Int 0
      else Dbl f
  end.

(** [q > 0]: false when [q] is NaN. *)
Definition greater_than_0 (q : number) : bool :=
  match q with
  | NaN => false
  | Int z => (0 <? z)%Z
  | Dbl f => PrimFloat.ltb 0%float f
  end.

(** [s[k] || 0] for an object of numbers. *)
Definition quantity_or_0 (s : list (string * number)) (k : string) : number :=
  match lookup_field k s with
  | Some n => if truthy_number n then n else Int 0
  | None => Int 0
  end.

(** [{ ...s, [k]: v }]: the value under [k] replaced where it stands, or a
    new last property. *)
Fixpoint with_property {A : Type} (s : list (string * A)) (k : string) (v : A)
    : list (string * A) :=
  match s with
  | [] => [(k, v)]
  | (k', v') :: rest =>
      if String.eqb k' k then (k, v) :: rest
      else (k', v') :: with_property rest k v
  end.

(** ** Component state *)

Record Product : Type := {
  id : string;
  name : string;
  priceCents : Z;
  unitFactor : Z;
  color : string
}.

Definition PRODUCTS : list Product :=
  [ {| id := "p_1"; name := "Classic Cookie"; priceCents := 300;
       unitFactor := 1; color := "#FFB703" |};
    {| id := "p_2"; name := "Double Choc"; priceCents := 350;
       unitFactor := 1; color := "#FB8500" |};
    {| id := "p_3"; name := "Party Box (6)"; priceCents := 1600;
       unitFactor := 6; color := "#8ECAE6" |} ].

(** The second argument of [notify]: a type name, or the caught error that
    some handlers pass in its place. *)
Inductive ToastType : Type :=
| Named (type : string)
| Caught (message : string).

Record Toast : Type := { msg : value; type : ToastType }.

(** The [useState] cells of [App]. *)
Record State : Type := {
  step : Z;
  cartId : value;
  items : list (string * number);
  pos : number * number;
  slots : json;
  selectedSlotId : value;
  quote : value;
  loading : bool;
  toast : option Toast
}.

Definition initial_items : list (string * number) :=
  [ ("p_1", Int 2); ("p_2", Int 1); ("p_3", Int 0) ].

Definition initial : State :=
  {| step := 1; cartId := Some JNull; items := initial_items;
     pos := (Dbl 60.1699%float, Dbl 24.9384%float);
     slots := JArr []; selectedSlotId := Some JNull; quote := Some JNull;
     loading := false; toast := None |}.

Definition setStep (n : Z) (st : State) : State :=
  {| step := n; cartId := cartId st; items := items st; pos := pos st;
     slots := slots st; selectedSlotId := selectedSlotId st; quote := quote st;
     loading := loading st; toast := toast st |}.

Definition setCartId (v : value) (st : State) : State :=
  {| step := step st; cartId := v; items := items st; pos := pos st;
     slots := slots st; selectedSlotId := selectedSlotId st; quote := quote st;
     loading := loading st; toast := toast st |}.

Definition setItems (f : list (string * number) -> list (string * number))
    (st : State) : State :=
  {| step := step st; cartId := cartId st; items := f (items st); pos := pos st;
     slots := slots st; selectedSlotId := selectedSlotId st; quote := quote st;
     loading := loading st; toast := toast st |}.

Definition setPos (p : number * number) (st : State) : State :=
  {| step := step st; cartId := cartId st; items := items st; pos := p;
     slots := slots st; selectedSlotId := selectedSlotId st; quote := quote st;
     loading := loading st; toast := toast st |}.

Definition setSlots (v : json) (st : State) : State :=
  {| step := step st; cartId := cartId st; items := items st; pos := pos st;
     slots := v; selectedSlotId := selectedSlotId st; quote := quote st;
     loading := loading st; toast := toast st |}.

Definition setSelectedSlotId (v : value) (st : State) : State :=
  {| step := step st; cartId := cartId st; items := items st; pos := pos st;
     slots := slots st; selectedSlotId := v; quote := quote st;
     loading := loading st; toast := toast st |}.

Definition setQuote (v : value) (st : State) : State :=
  {| step := step st; cartId := cartId st; items := items st; pos := pos st;
     slots := slots st; selectedSlotId := selectedSlotId st; quote := v;
     loading := loading st; toast := toast st |}.

Definition setLoading (b : bool) (st : State) : State :=
  {| step := step st; cartId := cartId st; items := items st; pos := pos st;
     slots := slots st; selectedSlotId := selectedSlotId st; quote := quote st;
     loading := b; toast := toast st |}.

Definition setToast (t : option Toast) (st : State) : State :=
  {| step := step st; cartId := cartId st; items := items st; pos := pos st;
     slots := slots st; selectedSlotId := selectedSlotId st; quote := quote st;
     loading := loading st; toast := t |}.

(** [notify(msg, type)]; the timer it starts fires [clearToast] three
    seconds later. *)
Definition notify (m : value) (ty : ToastType) (st : State) : State :=
  setToast (Some {| msg := m; type := ty |}) st.

Definition notify_text (m : string) (ty : string) (st : State) : State :=
  notify (Some (JStr m)) (Named ty) st.

Definition clearToast (st : State) : State := setToast None st.

(** [resetAll] *)
Definition resetAll (st : State) : State :=
  setQuote (Some JNull)
    (setSelectedSlotId (Some JNull)
       (setSlots (JArr [])
          (setPos (Dbl 60.1699%float, Dbl 24.9384%float)
             (setItems (fun _ => initial_items)
                (setCartId (Some JNull) (setStep 1 st)))))).

(** ** Running a handler *)

(** What a response gives: [res.ok], and the resolution of [res.text()]. *)
Record Response : Type := {
  ok : bool;
  text : result string
}.

(** How a [fetch] ends: it rejects with an error, or resolves to a
    response. *)
Inductive Fetch : Type :=
| Rejects (message : string)
| Resolves (res : Response).

(** An asynchronous handler body, run without another handler in between:
    from the state to the requests sent, the state reached, and the value
    or the error thrown. *)
Definition Task (A : Type) : Type := State -> list Request * State * result A.

#[export] Instance Task_ret : MRet Task :=
  fun A a st => ([], st, Ok a).

#[export] Instance Task_bind : MBind Task :=
  fun A B f m st =>
    match m st with
    | (reqs, st', Ok a) =>
        match f a st' with
        | (reqs', st'', r) => ((reqs ++ reqs')%list, st'', r)
        end
    | (reqs, st', Throw e) => (reqs, st', Throw e)
    end.

(** A state setter call. *)
Definition update (f : State -> State) : Task unit :=
  fun st => ([], f st, Ok tt).

(** [throw new Error(message)] *)
Definition throw {A : Type} (message : string) : Task A :=
  fun st => ([], st, Throw message).

(** An operation that returns or throws. *)
Definition complete {A : Type} (r : result A) : Task A :=
  fun st => ([], st, r).

(** [await fetch(...)]: the request leaves, and [answer] comes back. *)
Definition fetch (req : Request) (answer : Fetch) : Task Response :=
  fun st =>
    ([req], st, match answer with
                | Rejects e => Throw e
                | Resolves res => Ok res
                end).

(** [try { body } catch (e) { handler(e.message) } finally { final }] *)
Definition try_catch_finally (body : Task unit) (handler : string -> State -> State)
    (final : State -> State) : State -> list Request * State :=
  fun st =>
    match body st with
    | (reqs, st', Ok _) => (reqs, final st')
    | (reqs, st', Throw e) => (reqs, final (handler e st'))
    end.

(** [await res.json()] *)
Definition res_json `{Runtime} (res : Response) : result json :=
  match text res with
  | Ok t => JSON_parse t
  | Throw e => Throw e
  end.

(** [if (!res.ok) throw new Error(await res.text())] *)
Definition check_ok (res : Response) : Task unit :=
  if ok res then mret tt
  else match text res with
       | Ok t => throw t
       | Throw e => throw e
       end.

(** ** Step 1: quantities and the cart *)

(** The three quantity editors of a product card, as state updaters. *)
Definition decrement (p : Product) (s : list (string * number))
    : list (string * number) :=
  with_property s (id p) (Math_max_0 (minus_one (quantity_or_0 s (id p)))).

(** [onChange]; [target_value] is [e.target.value]. *)
Definition change (p : Product) (target_value : string)
    (s : list (string * number)) : list (string * number) :=
  with_property s (id p)
    (Math_max_0 (parseInt (if String.eqb target_value "" then "0" else target_value))).

Definition increment (p : Product) (s : list (string * number))
    : list (string * number) :=
  with_property s (id p) (plus_one (quantity_or_0 s (id p))).

(** [Object.entries(items).filter(([, q]) => q > 0)] *)
Definition cartLines (s : list (string * number)) : list (string * number) :=
  filter (fun kv => greater_than_0 (snd kv) = true) s.

(** [{ items: lines.map(([productId, qty]) => ({ productId, qty })) }] *)
Definition cartBody (lines : list (string * number)) : json :=
  JObj [ ("items",
          JArr (map (fun kv => JObj [ ("productId", JStr (fst kv));
                                      ("qty", number_json (snd kv)) ])
                  lines)) ].

Section Handlers.
Context `{Runtime}.

(** [createCart] *)
Definition createCart (answer : Fetch) : State -> list Request * State :=
  fun st0 =>
    try_catch_finally
      (let lines := cartLines (items st0) in
       if (length lines =? 0)%nat then
         update (notify_text "Add at least one product." "error");;
         update (setLoading false)
       else
         res ← fetch {| method := "POST"; url := API_BASE +:+ "/cart";
                        body := Some (cartBody lines) |} answer;
         check_ok res;;
         data ← complete (res_json res);
         cart_id ← complete (property data "cartId");
         update (setCartId cart_id);;
         update (notify_text "Cart created." "success");;
         update (setStep 2))
      (fun e => notify (Some (JStr "Failed to create cart")) (Caught e))
      (setLoading false)
      (setLoading true st0).

End Handlers.

(** ** Dates and URLs *)

Fixpoint zeros (k : nat) : string :=
  match k with
  | O => ""
  | S k' => "0" +:+ zeros k'
  end.

(** The decimal digits of [n] (not negative), zero-padded to [width]. *)
Definition pad (width : nat) (n : Z) : string :=
  let d := pretty n in zeros (width - String.length d) +:+ d.

(** Year, month and day of the proleptic Gregorian calendar for a number of
    days since 1970-01-01. *)
Definition civil_from_days (days : Z) : Z * Z * Z :=
  let z := days + 719468 in
  let era := z / 146097 in
  let doe := z - era * 146097 in
  let yoe := (doe - doe / 1460 + doe / 36524 - doe / 146096) / 365 in
  let doy := doe - (365 * yoe + yoe / 4 - yoe / 100) in
  let mp := (5 * doy + 2) / 153 in
  let d := doy - (153 * mp + 2) / 5 + 1 in
  let m := if mp <? 10 then mp + 3 else mp - 9 in
  let y := yoe + era * 400 in
  (if m <=? 2 then y + 1 else y, m, d).

Definition msPerDay : Z := 86400000.

(** [new Date(t).toISOString()] for a time value [t] in milliseconds since
    the epoch: a RangeError outside the range of valid dates. *)
Definition toISOString (t : Z) : result string :=
  if (Z.abs t <=? 8640000000000000)%Z then
    let '(y, m, d) := civil_from_days (t / msPerDay) in
    let ms := t mod msPerDay in
    let year :=
      if ((0 <=? y) && (y <=? 9999))%Z then pad 4 y
      else (if (y <? 0)%Z then "-" else "+") +:+ pad 6 (Z.abs y) in
    Ok (year +:+ "-" +:+ pad 2 m +:+ "-" +:+ pad 2 d +:+ "T"
        +:+ pad 2 (ms / 3600000) +:+ ":" +:+ pad 2 (ms / 60000 mod 60) +:+ ":"
        +:+ pad 2 (ms / 1000 mod 60) +:+ "." +:+ pad 3 (ms mod 1000) +:+ "Z")
  else Throw "Invalid time value".

Definition hex_digit (n : Z) : ascii :=
  ascii_of_nat (Z.to_nat (if (n <? 10)%Z then 48 + n else 55 + n)).

(** The characters [encodeURIComponent] leaves as they are. *)
Definition unreserved (c : ascii) : bool :=
  let n := Z.of_nat (nat_of_ascii c) in
  ((48 <=? n)%Z && (n <=? 57)%Z || (65 <=? n)%Z && (n <=? 90)%Z
   || (97 <=? n)%Z && (n <=? 122)%Z
   || bool_decide (n ∈ [45; 95; 46; 33; 126; 42; 39; 40; 41]%Z)).

(** [encodeURIComponent(s)] on the UTF-8 bytes of [s]. *)
Fixpoint encodeURIComponent (s : string) : string :=
  match s with
  | EmptyString => EmptyString
  | String c rest =>
      if unreserved c then String c (encodeURIComponent rest)
      else
        let n := Z.of_nat (nat_of_ascii c) in
        String "%" (String (hex_digit (n / 16)) (String (hex_digit (n mod 16))
          (encodeURIComponent rest)))
  end.

Example toISOString_epoch : toISOString 0 = Ok "1970-01-01T00:00:00.000Z".
Proof. vm_compute. reflexivity. Qed.

Example toISOString_2025 :
  toISOString 1762336800123 = Ok "2025-11-05T10:00:00.123Z".
Proof. vm_compute. reflexivity. Qed.

Example toISOString_leap_day :
  toISOString 1709251199999 = Ok "2024-02-29T23:59:59.999Z".
Proof. vm_compute. reflexivity. Qed.

Example toISOString_before_epoch :
  toISOString (-1) = Ok "1969-12-31T23:59:59.999Z".
Proof. vm_compute. reflexivity. Qed.

Example encodeURIComponent_iso :
  encodeURIComponent "2025-11-05T10:00:00.123Z" = "2025-11-05T10%3A00%3A00.123Z".
Proof. vm_compute. reflexivity. Qed.

(** ** Step 3: the time range and the slot list *)

Record IsoRange : Type := { fromISO : string; toISO : string }.

(** The function [useNowIsoRange] memoises, run at clock time [now]. *)
Definition computeRange (days now : Z) : result IsoRange :=
  match toISOString now with
  | Throw e => Throw e
  | Ok f =>
      match toISOString (now + days * 86400000) with
      | Throw e => Throw e
      | Ok t => Ok {| fromISO := f; toISO := t |}
      end
  end.

(** The cell of [useMemo]: the dependency [days] it was computed for, and
    the value. *)
Definition Memo : Type := option (Z * IsoRange).

(** [useNowIsoRange(days)] in a render at clock time [now]: the memoised
    range while [days] is the same, else a new one. An error leaves the
    render without a result. *)
Definition useNowIsoRange (days : Z) (now : Z) (memo : Memo)
    : result (IsoRange * Memo) :=
  let compute :=
    match computeRange days now with
    | Ok r => Ok (r, Some (days, r))
    | Throw e => Throw e
    end in
  match memo with
  | Some (d, r) => if (d =? days)%Z then Ok (r, memo) else compute
  | None => compute
  end.

(** The range [App] holds after rendering at each of the [clock] times in
    turn ([const { fromISO, toISO } = useNowIsoRange(3)]), from the range
    and cell of the render before. *)
Fixpoint rerender (clock : list Z) (r : IsoRange) (memo : Memo)
    : result (IsoRange * Memo) :=
  match clock with
  | [] => Ok (r, memo)
  | now :: later =>
      match useNowIsoRange 3 now memo with
      | Ok (r', memo') => rerender later r' memo'
      | Throw e => Throw e
      end
  end.

(** The first render of [App] at [now], then the renders at [later]. *)
Definition renders (now : Z) (later : list Z) : result (IsoRange * Memo) :=
  match useNowIsoRange 3 now None with
  | Ok (r, memo) => rerender later r memo
  | Throw e => Throw e
  end.

Section SlotHandlers.
Context `{Runtime}.

(** The URL of the slot listing. *)
Definition slotsUrl (st : State) (range : IsoRange) : string :=
  API_BASE +:+ "/delivery/slots?cartId=" +:+ value_toString (cartId st)
  +:+ "&lat=" +:+ Number_toString (fst (pos st))
  +:+ "&lon=" +:+ Number_toString (snd (pos st))
  +:+ "&fromISO=" +:+ encodeURIComponent (fromISO range)
  +:+ "&toISO=" +:+ encodeURIComponent (toISO range).

(** [fetchSlots], in a render that holds [range]. *)
Definition fetchSlots (range : IsoRange) (answer : Fetch)
    : State -> list Request * State :=
  fun st0 =>
    if negb (truthy (cartId st0)) then
      ([], notify_text "Create a cart first." "error" st0)
    else
      try_catch_finally
        (res ← fetch {| method := "GET"; url := slotsUrl st0 range;
                        body := None |} answer;
         check_ok res;;
         data ← complete (res_json res);
         data_slots ← complete (property data "slots");
         update (setSlots (default (JArr []) (or_else data_slots (Some (JArr [])))));;
         update (setSelectedSlotId (Some JNull));;
         update (notify_text
                   ("Loaded " +:+
                    value_toString
                      (or_else (optional_property data_slots "length")
                               (Some (JNum (Int 0))))
                    +:+ " slots.") "success"))
        (fun e => notify (Some (JStr "Failed to fetch slots")) (Caught e))
        (setLoading false)
        (setLoading true st0).

End SlotHandlers.

(** ** Step 3: quote, payment and confirmation *)

Section QuoteHandlers.
Context `{Runtime}.

(** The body of the [catch] of [quoteAndPay], on the caught error's
    message. *)
Definition quoteAndPay_catch (message : string) : State -> State :=
  match JSON_parse message with
  | Ok detail =>
      let inner := optional_property (Some detail) "detail" in
      if strict_equals_string (optional_property inner "error")
           "SOLO_MIN_UNITS_REQUIRED"
      then notify (optional_property inner "message") (Named "warn")
      else notify_text "Quote/payment failed." "error"
  | Throw _ => notify_text "Quote/payment failed." "error"
  end.

(** The request of the quote: [{ cartId, slotId, lat: pos[0], lon: pos[1] }]. *)
Definition quoteRequest (st : State) (slotId : value) : Request :=
  {| method := "POST"; url := API_BASE +:+ "/checkout/quote";
     body := Some (stringify_object
                     [ ("cartId", cartId st);
                       ("slotId", slotId);
                       ("lat", Some (number_json (fst (pos st))));
                       ("lon", Some (number_json (snd (pos st)))) ]) |}.

Definition paymentRequest (quoteId : value) : Request :=
  {| method := "POST"; url := API_BASE +:+ "/payments/create";
     body := Some (stringify_object [ ("quoteId", quoteId) ]) |}.

Definition webhookRequest (quoteId : value) : Request :=
  {| method := "POST"; url := API_BASE +:+ "/webhooks/payment";
     body := Some (stringify_object
                     [ ("event", Some (JStr "payment_succeeded"));
                       ("quoteId", quoteId) ]) |}.

(** The [try] block of [quoteAndPay(slotId)] in the state [st0] of the
    render; the three answers are those of the quote, the payment intent
    and the webhook. *)
Definition quoteAndPay_try (st0 : State) (slotId : value)
    (answerQ answerP answerW : Fetch) : Task unit :=
  resQ ← fetch (quoteRequest st0 slotId) answerQ;
  txt ← complete (text resQ);
  (if ok resQ then mret tt else throw txt);;
  q ← complete (JSON_parse txt);
  update (setSelectedSlotId slotId);;
  update (setQuote (Some q));;
  quoteId ← complete (property q "quoteId");
  resP ← fetch (paymentRequest quoteId) answerP;
  check_ok resP;;
  quoteId' ← complete (property q "quoteId");
  resW ← fetch (webhookRequest quoteId') answerW;
  check_ok resW;;
  update (notify_text "Order confirmed! 🎉" "success");;
  update (setStep 4).

(** [quoteAndPay(slotId)] *)
Definition quoteAndPay (slotId : value) (answerQ answerP answerW : Fetch)
    : State -> list Request * State :=
  fun st0 =>
    if negb (truthy (cartId st0)) then
      ([], notify_text "Create a cart first." "error" st0)
    else
      try_catch_finally
        (quoteAndPay_try st0 slotId answerQ answerP answerW)
        quoteAndPay_catch
        (setLoading false)
        (setLoading true st0).

(** ** The slot cards *)

(** What React puts in the page. *)
Inductive node : Type :=
| Text (s : string)
| Element (tag className : string) (children : list node).

(** A value as a child of an element: a number or a string is text, an
    array gives the children its items give, [null], [undefined] and the
    booleans give nothing, and React refuses an object. *)
Fixpoint render_json (v : json) : result (list node) :=
  match v with
  | JNull | JBool _ => Ok []
  | JNum n => Ok [Text (Number_toString n)]
  | JStr s => Ok (if String.eqb s "" then [] else [Text s])
  | JArr l =>
      (fix each (l : list json) : result (list node) :=
         match l with
         | [] => Ok []
         | x :: rest =>
             match render_json x, each rest with
             | Ok a, Ok b => Ok (a ++ b)%list
             | Throw e, _ => Throw e
             | _, Throw e => Throw e
             end
         end) l
  | JObj _ => Throw "Objects are not valid as a React child"
  end.

Definition render_child (v : value) : result (list node) :=
  match v with
  | None => Ok []
  | Some j => render_json j
  end.

(** The hint of a slot card:
    [{s.requiresSoloMinUnits && (<div className="warn">No nearby deliveries.
    Minimum {s.soloMinUnits} units for this slot.</div>)}] *)
Definition soloMinHint (s : json) : result (list node) :=
  match property s "requiresSoloMinUnits" with
  | Throw e => Throw e
  | Ok flag =>
      if truthy flag then
        match property s "soloMinUnits" with
        | Throw e => Throw e
        | Ok units =>
            match render_child units with
            | Throw e => Throw e
            | Ok shown =>
                Ok [ Element "div" "warn"
                       ([Text "No nearby deliveries. Minimum "] ++ shown
                        ++ [Text " units for this slot."])%list ]
            end
        end
      else render_child flag
  end.

End QuoteHandlers.

(** ** Properties of the checkout flow *)

(** A quantity that is a count: an integer, not negative. *)
Definition is_count (n : number) : Prop := ∃ z, n = Int z ∧ 0 ≤ z.

(** What the editors keep of every quantity: a count, or NaN. *)
Definition count_or_NaN (n : number) : Prop := n = NaN ∨ is_count n.

Definition quantities (P : number -> Prop) (s : list (string * number)) : Prop :=
  Forall (fun kv => P (snd kv)) s.

Lemma with_property_Forall {A : Type} (P : A -> Prop)
    (s : list (string * A)) (k : string) (v : A) :
  Forall (fun kv => P (snd kv)) s → P v →
  Forall (fun kv => P (snd kv)) (with_property s k v).
Proof.
  intros Hs Hv. induction Hs as [| [k' v'] rest Hhd Htl IH]; simpl.
  - constructor; [exact Hv | constructor].
  - destruct (String.eqb k' k); constructor; assumption.
Qed.

Lemma lookup_field_Forall {A : Type} (P : A -> Prop)
    (s : list (string * A)) (k : string) (v : A) :
  Forall (fun kv => P (snd kv)) s → lookup_field k s = Some v → P v.
Proof.
  intros Hs. induction Hs as [| [k' v'] rest Hhd Htl IH]; simpl; [discriminate |].
  destruct (String.eqb k' k); [intros [= <-]; exact Hhd | exact IH].
Qed.

Lemma quantity_or_0_count (s : list (string * number)) (k : string) :
  quantities count_or_NaN s → is_count (quantity_or_0 s k).
Proof.
  intros Hs. unfold quantity_or_0.
  destruct (lookup_field k s) as [n |] eqn:Hk; [| exists 0; split; [reflexivity | lia]].
  destruct (lookup_field_Forall _ _ _ _ Hs Hk) as [-> | (z & -> & Hz)]; simpl.
  - exists 0. split; [reflexivity | lia].
  - destruct (z =? 0); simpl; [exists 0 | exists z]; split; (reflexivity || lia).
Qed.

Lemma parseInt_integral (s : string) : parseInt s = NaN ∨ ∃ z, parseInt s = Int z.
Proof.
  unfold parseInt.
  destruct (match trim_start s with
            | String "-" r => (-1, r)
            | String "+" r => (1, r)
            | _ => (1, trim_start s)
            end) as [sign rest].
  destruct (digits_prefix rest None); [right; eexists; reflexivity | left; reflexivity].
Qed.

(** The three editors keep every quantity a count or NaN. *)
Lemma editors_keep_quantities (p : Product) (target_value : string)
    (s : list (string * number)) :
  quantities count_or_NaN s →
  quantities count_or_NaN (decrement p s) ∧
  quantities count_or_NaN (change p target_value s) ∧
  quantities count_or_NaN (increment p s).
Proof.
  intros Hs. split; [| split]; apply with_property_Forall; try exact Hs.
  - destruct (quantity_or_0_count s (id p) Hs) as (z & -> & Hz). simpl.
    right. exists (Z.max 0 (round_double (z - 1))). split; [reflexivity | lia].
  - destruct (parseInt_integral
                (if String.eqb target_value "" then "0" else target_value))
      as [-> | [z ->]]; simpl.
    + left. reflexivity.
    + right. exists (Z.max 0 z). split; [reflexivity | lia].
  - destruct (quantity_or_0_count s (id p) Hs) as (z & -> & Hz). simpl.
    right. exists (round_double (z + 1)).
    split; [reflexivity | apply round_double_nonneg; lia].
Qed.

Lemma initial_items_counts : quantities is_count initial_items.
Proof.
  unfold quantities, initial_items.
  repeat constructor; simpl; eexists; (split; [reflexivity | lia]).
Qed.

(** Every line of the cart request has a quantity of at least one, whatever
    the editors did before. *)
Lemma cartLines_qty_positive (s : list (string * number)) :
  quantities count_or_NaN s →
  Forall (fun kv => ∃ z, snd kv = Int z ∧ 1 ≤ z ∧ number_json (snd kv) = JNum (Int z))
    (cartLines s).
Proof.
  intros Hs. unfold cartLines. apply Forall_forall. intros [k q] Hin.
  apply list_elem_of_filter in Hin as [Hpos Hin]. simpl in *.
  unfold quantities in Hs. rewrite Forall_forall in Hs.
  destruct (Hs _ Hin) as [Hq | (z & Hq & Hz)]; simpl in Hq; subst q.
  - discriminate Hpos.
  - exists z. simpl in Hpos. apply Z.ltb_lt in Hpos.
    split; [reflexivity | split; [lia | reflexivity]].
Qed.

(** A click or a change on a quantity editor of a product card. *)
Inductive Edit : Type :=
| Decrement (p : Product)
| Change (p : Product) (target_value : string)
| Increment (p : Product).

Definition apply_edit (s : list (string * number)) (e : Edit)
    : list (string * number) :=
  match e with
  | Decrement p => decrement p s
  | Change p target_value => change p target_value s
  | Increment p => increment p s
  end.

(** Whatever the customer does with the editors, from the first render on,
    every quantity is a count or NaN, and every line of the cart has a
    quantity of at least one. *)
Lemma edits_keep_quantities (edits : list Edit) :
  quantities count_or_NaN (foldl apply_edit initial_items edits) ∧
  Forall (fun kv => ∃ z, snd kv = Int z ∧ 1 ≤ z)
    (cartLines (foldl apply_edit initial_items edits)).
Proof.
  assert (Hq : quantities count_or_NaN (foldl apply_edit initial_items edits)).
  { assert (Hinit : quantities count_or_NaN initial_items).
    { eapply Forall_impl; [apply initial_items_counts |]. intros kv Hkv. right. exact Hkv. }
    revert Hinit. generalize initial_items.
    induction edits as [| e edits IH]; intros s Hs; simpl; [exact Hs |].
    apply IH. destruct e as [p | p v | p]; simpl;
      [apply (editors_keep_quantities p "" s Hs)
      | apply (editors_keep_quantities p v s Hs)
      | apply (editors_keep_quantities p "" s Hs)]. }
  split; [exact Hq |].
  eapply Forall_impl; [apply cartLines_qty_positive, Hq |].
  intros kv (z & Hz & Hpos & _). exists z. split; assumption.
Qed.

Section HandlerProperties.
Context `{Runtime}.

(** [createCart] sends the lines with a positive quantity, and sends nothing
    when there is none. *)
Lemma createCart_request (answer : Fetch) (st : State) :
  fst (createCart answer st) =
    match cartLines (items st) with
    | [] => []
    | lines => [ {| method := "POST"; url := API_BASE +:+ "/cart";
                    body := Some (cartBody lines) |} ]
    end.
Proof.
  unfold createCart, try_catch_finally. simpl.
  destruct (cartLines (items st)) as [| l ls] eqn:Hl; simpl; [reflexivity |].
  unfold mbind, Task_bind, fetch, check_ok, complete, update, throw, mret, Task_ret.
  destruct answer as [e | res]; simpl; [reflexivity |].
  destruct (ok res); simpl.
  - destruct (res_json res) as [data | e]; simpl; [| reflexivity].
    destruct (property data "cartId"); reflexivity.
  - destruct (text res); reflexivity.
Qed.

End HandlerProperties.

(** C9: the quantity editor does not keep every quantity a count. A change
    event whose value is [.5], which a number input accepts, stores NaN for
    the product: [parseInt] finds no digit before the point, and
    [Math.max(0, NaN)] is NaN. The cart request is not affected: it leaves
    the product out, as it does for a quantity of zero. *)
Theorem change_fraction_stores_NaN :
  lookup_field "p_1"
    (change {| id := "p_1"; name := "Classic Cookie"; priceCents := 300;
               unitFactor := 1; color := "#FFB703" |} ".5" initial_items)
  = Some NaN ∧
  cartLines
    (change {| id := "p_1"; name := "Classic Cookie"; priceCents := 300;
               unitFactor := 1; color := "#FFB703" |} ".5" initial_items)
  = [ ("p_2", Int 1) ].
Proof. split; vm_compute; reflexivity. Qed.

Lemma toISOString_valid (t : Z) :
  Z.abs t ≤ 8640000000000000 → ∃ iso, toISOString t = Ok iso.
Proof.
  intros Ht. unfold toISOString.
  destruct (Z.leb_spec (Z.abs t) 8640000000000000) as [_ | Hgt]; [| lia].
  destruct (civil_from_days (t / msPerDay)) as [[y m] d].
  eexists. reflexivity.
Qed.

Lemma rerender_memoised (later : list Z) (r : IsoRange) :
  rerender later r (Some (3, r)) = Ok (r, Some (3, r)).
Proof.
  induction later as [| now later IH]; simpl; [reflexivity | exact IH].
Qed.

Section RangeProperties.
Context `{Runtime}.

Lemma fetchSlots_request (range : IsoRange) (answer : Fetch) (st : State) :
  truthy (cartId st) = true →
  fst (fetchSlots range answer st) =
    [ {| method := "GET"; url := slotsUrl st range; body := None |} ].
Proof.
  intros Hcart. unfold fetchSlots, try_catch_finally. rewrite Hcart. simpl.
  unfold mbind, Task_bind, fetch, check_ok, complete, update, throw, mret, Task_ret.
  destruct answer as [e | res]; simpl; [reflexivity |].
  destruct (ok res); simpl.
  - destruct (res_json res) as [data | e]; simpl; [| reflexivity].
    destruct (property data "slots"); reflexivity.
  - destruct (text res); reflexivity.
Qed.

(** C5: the range of every slot listing is the one computed at the first
    render of the flow, at clock time [now]: [fromISO] is the ISO-8601 UTC
    form of [now] and [toISO] that of [now] plus 3 x 86,400,000 ms. Later
    renders keep it, and [fetchSlots] sends exactly one request, whose URL
    carries both, percent-encoded. *)
Theorem slot_listing_range_is_three_days
    (now : Z) (later : list Z) (answer : Fetch) (st : State) :
  - 8640000000000000 ≤ now →
  now + 3 * 86400000 ≤ 8640000000000000 →
  truthy (cartId st) = true →
  ∃ f t,
    toISOString now = Ok f ∧
    toISOString (now + 3 * 86400000) = Ok t ∧
    renders now later =
      Ok ({| fromISO := f; toISO := t |},
          Some (3, {| fromISO := f; toISO := t |})) ∧
    fst (fetchSlots {| fromISO := f; toISO := t |} answer st) =
      [ {| method := "GET";
           url := API_BASE +:+ "/delivery/slots?cartId="
                  +:+ value_toString (cartId st)
                  +:+ "&lat=" +:+ Number_toString (fst (pos st))
                  +:+ "&lon=" +:+ Number_toString (snd (pos st))
                  +:+ "&fromISO=" +:+ encodeURIComponent f
                  +:+ "&toISO=" +:+ encodeURIComponent t;
           body := None |} ].
Proof.
  intros Hlo Hhi Hcart.
  destruct (toISOString_valid now) as [f Hf]; [lia |].
  destruct (toISOString_valid (now + 3 * 86400000)) as [t Ht]; [lia |].
  exists f, t. split; [exact Hf |]. split; [exact Ht |]. split.
  - unfold renders, useNowIsoRange, computeRange. rewrite Hf, Ht.
    apply rerender_memoised.
  - rewrite (fetchSlots_request _ _ _ Hcart). reflexivity.
Qed.

(** C6: for a slot whose [requiresSoloMinUnits] is a boolean and whose
    [soloMinUnits] is a number, the card shows the hint exactly when the flag
    is true, and the hint names that slot's [soloMinUnits]. *)
Theorem soloMinHint_follows_flag (s : json) (flag : bool) (units : number) :
  property s "requiresSoloMinUnits" = Ok (Some (JBool flag)) →
  property s "soloMinUnits" = Ok (Some (JNum units)) →
  soloMinHint s =
    Ok (if flag
        then [ Element "div" "warn"
                 [ Text "No nearby deliveries. Minimum ";
                   Text (Number_toString units);
                   Text " units for this slot." ] ]
        else []).
Proof.
  intros Hflag Hunits. unfold soloMinHint. rewrite Hflag. simpl.
  destruct flag; [| reflexivity].
  rewrite Hunits. reflexivity.
Qed.

End RangeProperties.

(** C5 on a cart [c_1] and a first render on 2025-11-05 at 10:00:00.123 UTC. *)
Lemma slot_listing_range_is_three_days_witness :
  ∃ f t,
    toISOString 1762336800123 = Ok f ∧
    toISOString (1762336800123 + 3 * 86400000) = Ok t ∧
    renders 1762336800123 [1762336805000; 1762336900000] =
      Ok ({| fromISO := f; toISO := t |},
          Some (3, {| fromISO := f; toISO := t |})) ∧
    fst (@fetchSlots sample_runtime {| fromISO := f; toISO := t |}
           (Rejects "Failed to fetch")
           (setPos (Int 60, Int 25) (setCartId (Some (JStr "c_1")) initial))) =
      [ {| method := "GET";
           url := @API_BASE sample_runtime +:+ "/delivery/slots?cartId="
                  +:+ @value_toString sample_runtime (Some (JStr "c_1"))
                  +:+ "&lat=" +:+ @Number_toString sample_runtime (Int 60)
                  +:+ "&lon=" +:+ @Number_toString sample_runtime (Int 25)
                  +:+ "&fromISO=" +:+ encodeURIComponent f
                  +:+ "&toISO=" +:+ encodeURIComponent t;
           body := None |} ].
Proof.
  apply (@slot_listing_range_is_three_days sample_runtime 1762336800123
           [1762336805000; 1762336900000] (Rejects "Failed to fetch")
           (setPos (Int 60, Int 25) (setCartId (Some (JStr "c_1")) initial)));
    [lia | lia | reflexivity].
Defined.

Example fetchSlots_url :
  fst (@fetchSlots sample_runtime
         {| fromISO := "2025-11-05T10:00:00.123Z"; toISO := "2025-11-08T10:00:00.123Z" |}
         (Rejects "Failed to fetch")
         (setPos (Int 60, Int 25) (setCartId (Some (JStr "c_1")) initial)))
  = [ {| method := "GET";
         url := "http://localhost:8020/delivery/slots?cartId=c_1&lat=60&lon=25&fromISO=2025-11-05T10%3A00%3A00.123Z&toISO=2025-11-08T10%3A00%3A00.123Z";
         body := None |} ].
Proof. vm_compute. reflexivity. Qed.

Example renders_range :
  fst <$> match renders 1762336800123 [1762336805000] with
          | Ok x => Some x
          | Throw _ => None
          end
  = Some {| fromISO := "2025-11-05T10:00:00.123Z"; toISO := "2025-11-08T10:00:00.123Z" |}.
Proof. vm_compute. reflexivity. Qed.

Definition solo_slot : json :=
  JObj [ ("slotId", JStr "sl_xyz");
         ("requiresSoloMinUnits", JBool true);
         ("soloMinUnits", JNum (Int 6)) ].

(** C6 on a slot that requires six units. *)
Lemma soloMinHint_follows_flag_witness :
  @soloMinHint sample_runtime solo_slot =
    Ok [ Element "div" "warn"
           [ Text "No nearby deliveries. Minimum ";
             Text (@Number_toString sample_runtime (Int 6));
             Text " units for this slot." ] ].
Proof.
  apply (@soloMinHint_follows_flag sample_runtime solo_slot true (Int 6));
    reflexivity.
Defined.

Example soloMinHint_text :
  @soloMinHint sample_runtime solo_slot =
    Ok [ Element "div" "warn"
           [ Text "No nearby deliveries. Minimum "; Text "6";
             Text " units for this slot." ] ].
Proof. vm_compute. reflexivity. Qed.

Example soloMinHint_absent :
  @soloMinHint sample_runtime
    (JObj [ ("slotId", JStr "sl_abc"); ("requiresSoloMinUnits", JBool false);
            ("soloMinUnits", JNum (Int 6)) ]) = Ok [].
Proof. vm_compute. reflexivity. Qed.

(** ** Properties of the quote and payment step *)

Section QuoteProperties.
Context `{Runtime}.

(** The message a failure carries when it is a solo-minimum rejection: the
    text parses as JSON whose [detail.error] is the string
    [SOLO_MIN_UNITS_REQUIRED]; the result is its [detail.message]. *)
Definition solo_message (message : string) : option value :=
  match JSON_parse message with
  | Ok (JObj fields) =>
      match lookup_field "detail" fields with
      | Some (JObj inner) =>
          match lookup_field "error" inner with
          | Some (JStr e) =>
              if String.eqb e "SOLO_MIN_UNITS_REQUIRED"
              then Some (lookup_field "message" inner)
              else None
          | _ => None
          end
      | _ => None
      end
  | _ => None
  end.

Definition failure_toast (message : string) : Toast :=
  match solo_message message with
  | Some carried => {| msg := carried; type := Named "warn" |}
  | None => {| msg := Some (JStr "Quote/payment failed."); type := Named "error" |}
  end.

Lemma quoteAndPay_catch_toast (message : string) (st : State) :
  toast (quoteAndPay_catch message st) = Some (failure_toast message) ∧
  quoteAndPay_catch message st = setToast (Some (failure_toast message)) st.
Proof.
  unfold quoteAndPay_catch, failure_toast, solo_message.
  destruct (JSON_parse message) as [detail | e]; [| split; reflexivity].
  destruct detail as [| b | n | t | l | fields]; simpl;
    try (destruct (String.eqb "detail" "length"); split; reflexivity);
    try (split; reflexivity).
  destruct (lookup_field "detail" fields) as [inner |]; simpl; [| split; reflexivity].
  destruct inner as [| b | n | t | l | inner]; simpl; try (split; reflexivity).
  destruct (lookup_field "error" inner) as [e |]; simpl; [| split; reflexivity].
  destruct e as [| b | n | e | l | o]; simpl; try (split; reflexivity).
  destruct (String.eqb e "SOLO_MIN_UNITS_REQUIRED"); split; reflexivity.
Qed.

Ltac run_task :=
  unfold mbind, Task_bind, fetch, check_ok, complete, update, throw, mret,
    Task_ret; simpl.

(** Closes a goal that lists the requests sent after the quote. *)
Ltac sent :=
  eexists; split;
  [ reflexivity
  | repeat (apply Forall_cons_2;
            [first [left; reflexivity | right; reflexivity] |]);
    apply Forall_nil_2 ].

(** The requests of [quoteAndPay]: the quote, then at most the payment
    intent and the webhook. *)
Lemma quoteAndPay_requests (slotId : value) (answerQ answerP answerW : Fetch)
    (st : State) :
  truthy (cartId st) = true →
  ∃ rest,
    fst (quoteAndPay slotId answerQ answerP answerW st) =
      quoteRequest st slotId :: rest ∧
    Forall (fun r => url r = API_BASE +:+ "/payments/create"
                     ∨ url r = API_BASE +:+ "/webhooks/payment") rest.
Proof.
  intros Hcart. unfold quoteAndPay, try_catch_finally, quoteAndPay_try.
  rewrite Hcart. run_task.
  destruct answerQ as [e | resQ]; simpl; [sent |].
  destruct (text resQ) as [txt | e]; simpl; [| sent].
  destruct (ok resQ); simpl; [| sent].
  destruct (JSON_parse txt) as [q | e]; simpl; [| sent].
  destruct (property q "quoteId") as [quoteId | e]; simpl; [| sent].
  destruct answerP as [e | resP]; simpl; [sent |].
  destruct (ok resP); simpl; [| destruct (text resP); simpl; sent].
  destruct answerW as [e | resW]; simpl; [sent |].
  destruct (ok resW); simpl; [sent |].
  destruct (text resW); simpl; sent.
Qed.

(** C3, as the code has it: the request that [quoteAndPay] sends to
    [POST /checkout/quote] carries exactly the fields [cartId], [slotId],
    [lat] and [lon], in this order: the cart of the flow, the slot that was
    chosen, and the two coordinates of the position on the map. It is the
    first request of the handler, and the others go to the payment intent
    and the webhook: no location is resolved. *)
Theorem quote_request_carries_cart_slot_and_coordinates
    (st : State) (slotId : json) (answerQ answerP answerW : Fetch) :
  truthy (cartId st) = true →
  ∃ cart rest,
    cartId st = Some cart ∧
    fst (quoteAndPay (Some slotId) answerQ answerP answerW st) =
      {| method := "POST"; url := API_BASE +:+ "/checkout/quote";
         body := Some (JObj [ ("cartId", cart);
                              ("slotId", slotId);
                              ("lat", number_json (fst (pos st)));
                              ("lon", number_json (snd (pos st))) ]) |}
      :: rest ∧
    Forall (fun r => url r = API_BASE +:+ "/payments/create"
                     ∨ url r = API_BASE +:+ "/webhooks/payment") rest.
Proof.
  intros Hcart.
  destruct (quoteAndPay_requests (Some slotId) answerQ answerP answerW st Hcart)
    as (rest & Hreqs & Hrest).
  destruct (cartId st) as [cart |] eqn:Hc; [| discriminate Hcart].
  exists cart, rest. split; [reflexivity |]. split; [| exact Hrest].
  rewrite Hreqs. unfold quoteRequest, stringify_object. rewrite Hc. reflexivity.
Qed.

(** A request fails with [message]: the fetch rejects with it, or the
    response is not OK and [message] is its body, or what reading the body
    throws. *)
Definition fails_with (answer : Fetch) (message : string) : Prop :=
  answer = Rejects message ∨
  answer = Resolves {| ok := false; text := Ok message |} ∨
  answer = Resolves {| ok := false; text := Throw message |}.

(** C4, as the code has it: when a request of [quoteAndPay] fails, the
    notification depends on the message of the failure alone, whichever of
    the three requests failed. If the message parses as JSON whose
    [detail.error] is [SOLO_MIN_UNITS_REQUIRED], the notification is the
    carried [detail.message] with type [warn]; else it is the generic
    [Quote/payment failed.] with type [error]. This holds for whatever the
    [try] block throws, and the message is that of the request that failed:
    the quote; the payment intent, once the quote went through; the
    webhook, once the payment intent went through. For a response that is
    not OK the message is the body of that response. *)
Theorem quoteAndPay_failure_notification
    (st : State) (slotId : value) (answerQ answerP answerW : Fetch) :
  truthy (cartId st) = true →
  (∀ message,
     snd (quoteAndPay_try st slotId answerQ answerP answerW (setLoading true st))
       = Throw message →
     toast (snd (quoteAndPay slotId answerQ answerP answerW st)) =
       Some (match solo_message message with
             | Some carried => {| msg := carried; type := Named "warn" |}
             | None => {| msg := Some (JStr "Quote/payment failed.");
                          type := Named "error" |}
             end) ∧
     loading (snd (quoteAndPay slotId answerQ answerP answerW st)) = false) ∧
  (∀ message,
     fails_with answerQ message →
     snd (quoteAndPay_try st slotId answerQ answerP answerW (setLoading true st))
       = Throw message ∧
     toast (snd (quoteAndPay slotId answerQ answerP answerW st)) =
       Some (failure_toast message)) ∧
  (∀ txt q quoteId message,
     answerQ = Resolves {| ok := true; text := Ok txt |} →
     JSON_parse txt = Ok q →
     property q "quoteId" = Ok quoteId →
     fails_with answerP message →
     snd (quoteAndPay_try st slotId answerQ answerP answerW (setLoading true st))
       = Throw message ∧
     toast (snd (quoteAndPay slotId answerQ answerP answerW st)) =
       Some (failure_toast message)) ∧
  (∀ txt q quoteId textP message,
     answerQ = Resolves {| ok := true; text := Ok txt |} →
     JSON_parse txt = Ok q →
     property q "quoteId" = Ok quoteId →
     answerP = Resolves {| ok := true; text := textP |} →
     fails_with answerW message →
     snd (quoteAndPay_try st slotId answerQ answerP answerW (setLoading true st))
       = Throw message ∧
     toast (snd (quoteAndPay slotId answerQ answerP answerW st)) =
       Some (failure_toast message)).
Proof.
  intros Hcart.
  assert (Hany : ∀ message,
    snd (quoteAndPay_try st slotId answerQ answerP answerW (setLoading true st))
      = Throw message →
    toast (snd (quoteAndPay slotId answerQ answerP answerW st)) =
      Some (failure_toast message) ∧
    loading (snd (quoteAndPay slotId answerQ answerP answerW st)) = false).
  { intros message Hthrow. unfold quoteAndPay, try_catch_finally.
    rewrite Hcart. simpl.
    destruct (quoteAndPay_try st slotId answerQ answerP answerW (setLoading true st))
      as [[reqs st'] r] eqn:Htry.
    simpl in Hthrow. subst r. simpl.
    split; [apply quoteAndPay_catch_toast | reflexivity]. }
  split; [exact Hany |].
  split; [| split].
  - intros message Hfail.
    assert (Hthrow : snd (quoteAndPay_try st slotId answerQ answerP answerW
                            (setLoading true st)) = Throw message).
    { unfold quoteAndPay_try.
      destruct Hfail as [-> | [-> | ->]]; run_task; reflexivity. }
    split; [exact Hthrow | apply Hany, Hthrow].
  - intros txt q quoteId message -> Hq Hid Hfail.
    assert (Hthrow : snd (quoteAndPay_try st slotId
                            (Resolves {| ok := true; text := Ok txt |})
                            answerP answerW (setLoading true st)) = Throw message).
    { unfold quoteAndPay_try.
      destruct Hfail as [-> | [-> | ->]]; run_task; rewrite Hq; simpl;
        rewrite Hid; reflexivity. }
    split; [exact Hthrow | apply Hany, Hthrow].
  - intros txt q quoteId textP message -> Hq Hid -> Hfail.
    assert (Hthrow : snd (quoteAndPay_try st slotId
                            (Resolves {| ok := true; text := Ok txt |})
                            (Resolves {| ok := true; text := textP |})
                            answerW (setLoading true st)) = Throw message).
    { unfold quoteAndPay_try.
      destruct Hfail as [-> | [-> | ->]]; run_task; rewrite Hq; simpl;
        rewrite Hid; reflexivity. }
    split; [exact Hthrow | apply Hany, Hthrow].
Qed.

(** A quote answered with a response that is not OK throws its body; so
    does a payment intent, once the quote went through. *)
Lemma quoteAndPay_try_not_ok (st : State) (slotId : value)
    (answerP answerW : Fetch) (body txt : string) (q : json) (quoteId : value) :
  snd (quoteAndPay_try st slotId (Resolves {| ok := false; text := Ok body |})
         answerP answerW (setLoading true st)) = Throw body ∧
  (JSON_parse txt = Ok q → property q "quoteId" = Ok quoteId →
   snd (quoteAndPay_try st slotId (Resolves {| ok := true; text := Ok txt |})
          (Resolves {| ok := false; text := Ok body |}) answerW
          (setLoading true st)) = Throw body).
Proof.
  split.
  - unfold quoteAndPay_try. run_task. reflexivity.
  - intros Hq Hid. unfold quoteAndPay_try. run_task. rewrite Hq. simpl.
    rewrite Hid. reflexivity.
Qed.

End QuoteProperties.

Definition cart_state : State := setCartId (Some (JStr "c_a1b2c3")) initial.

(** C3 refuted as stated: the quote request of a cart, a slot and the
    default position names [cartId], [slotId], [lat] and [lon]; it has no
    [locationId]. *)
Lemma quote_request_has_no_locationId :
  fst (@quoteAndPay sample_runtime (Some (JStr "sl_abc"))
         (Rejects "Failed to fetch") (Rejects "Failed to fetch")
         (Rejects "Failed to fetch") cart_state)
  = [ {| method := "POST"; url := "http://localhost:8020/checkout/quote";
         body := Some (JObj [ ("cartId", JStr "c_a1b2c3");
                              ("slotId", JStr "sl_abc");
                              ("lat", JNum (Dbl 60.1699%float));
                              ("lon", JNum (Dbl 24.9384%float)) ]) |} ]
  ∧ lookup_field "locationId"
      [ ("cartId", JStr "c_a1b2c3"); ("slotId", JStr "sl_abc");
        ("lat", JNum (Dbl 60.1699%float)); ("lon", JNum (Dbl 24.9384%float)) ]
    = None
  ∧ [ "cartId"; "slotId"; "lat"; "lon" ] ≠ [ "cartId"; "slotId"; "locationId" ].
Proof. split; [vm_compute; reflexivity | split; [reflexivity | discriminate]]. Qed.

(** C3 on the same cart and slot. *)
Lemma quote_request_carries_cart_slot_and_coordinates_witness :
  ∃ cart rest,
    cartId cart_state = Some cart ∧
    fst (@quoteAndPay sample_runtime (Some (JStr "sl_abc"))
           (Rejects "Failed to fetch") (Rejects "Failed to fetch")
           (Rejects "Failed to fetch") cart_state) =
      {| method := "POST"; url := @API_BASE sample_runtime +:+ "/checkout/quote";
         body := Some (JObj [ ("cartId", cart);
                              ("slotId", JStr "sl_abc");
                              ("lat", number_json (fst (pos cart_state)));
                              ("lon", number_json (snd (pos cart_state))) ]) |}
      :: rest ∧
    Forall (fun r => url r = @API_BASE sample_runtime +:+ "/payments/create"
                     ∨ url r = @API_BASE sample_runtime +:+ "/webhooks/payment") rest.
Proof.
  apply (@quote_request_carries_cart_slot_and_coordinates sample_runtime
           cart_state (JStr "sl_abc") (Rejects "Failed to fetch")
           (Rejects "Failed to fetch") (Rejects "Failed to fetch")).
  reflexivity.
Defined.

(** C4 refuted as stated: a payment intent that fails with a body whose
    [detail.error] is [SOLO_MIN_UNITS_REQUIRED] is a failure other than that
    of the quote, and it is notified with the carried message and [warn],
    not with the generic message. *)
Lemma payment_failure_is_not_generic :
  fst (@quoteAndPay sample_runtime (Some (JStr "sl_abc"))
         (Resolves {| ok := true; text := Ok quote_text |})
         (Resolves {| ok := false; text := Ok solo_error_text |})
         (Rejects "Failed to fetch") cart_state)
  = [ @quoteRequest sample_runtime cart_state (Some (JStr "sl_abc"));
      @paymentRequest sample_runtime (Some (JStr "q_9f8e7d6c")) ]
  ∧ toast (snd (@quoteAndPay sample_runtime (Some (JStr "sl_abc"))
                  (Resolves {| ok := true; text := Ok quote_text |})
                  (Resolves {| ok := false; text := Ok solo_error_text |})
                  (Rejects "Failed to fetch") cart_state))
    = Some {| msg := Some (JStr "This time has no nearby deliveries. Add at least 6 items or choose a discounted time.");
              type := Named "warn" |}.
Proof. split; vm_compute; reflexivity. Qed.

(** C4 on a cart whose quote goes through and whose payment intent is
    rejected for the solo minimum. *)
Lemma quoteAndPay_failure_notification_witness :
  (∀ message,
     snd (@quoteAndPay_try sample_runtime cart_state (Some (JStr "sl_abc"))
            (Resolves {| ok := true; text := Ok quote_text |})
            (Resolves {| ok := false; text := Ok solo_error_text |})
            (Rejects "Failed to fetch") (setLoading true cart_state))
       = Throw message →
     toast (snd (@quoteAndPay sample_runtime (Some (JStr "sl_abc"))
                   (Resolves {| ok := true; text := Ok quote_text |})
                   (Resolves {| ok := false; text := Ok solo_error_text |})
                   (Rejects "Failed to fetch") cart_state)) =
       Some (match @solo_message sample_runtime message with
             | Some carried => {| msg := carried; type := Named "warn" |}
             | None => {| msg := Some (JStr "Quote/payment failed.");
                          type := Named "error" |}
             end) ∧
     loading (snd (@quoteAndPay sample_runtime (Some (JStr "sl_abc"))
                     (Resolves {| ok := true; text := Ok quote_text |})
                     (Resolves {| ok := false; text := Ok solo_error_text |})
                     (Rejects "Failed to fetch") cart_state)) = false) ∧
  (∀ message,
     fails_with (Resolves {| ok := true; text := Ok quote_text |}) message →
     snd (@quoteAndPay_try sample_runtime cart_state (Some (JStr "sl_abc"))
            (Resolves {| ok := true; text := Ok quote_text |})
            (Resolves {| ok := false; text := Ok solo_error_text |})
            (Rejects "Failed to fetch") (setLoading true cart_state))
       = Throw message ∧
     toast (snd (@quoteAndPay sample_runtime (Some (JStr "sl_abc"))
                   (Resolves {| ok := true; text := Ok quote_text |})
                   (Resolves {| ok := false; text := Ok solo_error_text |})
                   (Rejects "Failed to fetch") cart_state)) =
       Some (@failure_toast sample_runtime message)) ∧
  (∀ txt q quoteId message,
     Resolves {| ok := true; text := Ok quote_text |}
       = Resolves {| ok := true; text := Ok txt |} →
     @JSON_parse sample_runtime txt = Ok q →
     @property sample_runtime q "quoteId" = Ok quoteId →
     fails_with (Resolves {| ok := false; text := Ok solo_error_text |}) message →
     snd (@quoteAndPay_try sample_runtime cart_state (Some (JStr "sl_abc"))
            (Resolves {| ok := true; text := Ok quote_text |})
            (Resolves {| ok := false; text := Ok solo_error_text |})
            (Rejects "Failed to fetch") (setLoading true cart_state))
       = Throw message ∧
     toast (snd (@quoteAndPay sample_runtime (Some (JStr "sl_abc"))
                   (Resolves {| ok := true; text := Ok quote_text |})
                   (Resolves {| ok := false; text := Ok solo_error_text |})
                   (Rejects "Failed to fetch") cart_state)) =
       Some (@failure_toast sample_runtime message)) ∧
  (∀ txt q quoteId textP message,
     Resolves {| ok := true; text := Ok quote_text |}
       = Resolves {| ok := true; text := Ok txt |} →
     @JSON_parse sample_runtime txt = Ok q →
     @property sample_runtime q "quoteId" = Ok quoteId →
     Resolves {| ok := false; text := Ok solo_error_text |}
       = Resolves {| ok := true; text := textP |} →
     fails_with (Rejects "Failed to fetch") message →
     snd (@quoteAndPay_try sample_runtime cart_state (Some (JStr "sl_abc"))
            (Resolves {| ok := true; text := Ok quote_text |})
            (Resolves {| ok := false; text := Ok solo_error_text |})
            (Rejects "Failed to fetch") (setLoading true cart_state))
       = Throw message ∧
     toast (snd (@quoteAndPay sample_runtime (Some (JStr "sl_abc"))
                   (Resolves {| ok := true; text := Ok quote_text |})
                   (Resolves {| ok := false; text := Ok solo_error_text |})
                   (Rejects "Failed to fetch") cart_state)) =
       Some (@failure_toast sample_runtime message)).
Proof.
  apply (@quoteAndPay_failure_notification sample_runtime cart_state
           (Some (JStr "sl_abc"))
           (Resolves {| ok := true; text := Ok quote_text |})
           (Resolves {| ok := false; text := Ok solo_error_text |})
           (Rejects "Failed to fetch")).
  reflexivity.
Defined.

(** The three requests, each failing in turn with the solo-minimum body:
    the notification is the carried message every time. *)
Example solo_minimum_body_from_each_request :
  (toast (snd (@quoteAndPay sample_runtime (Some (JStr "sl_abc"))
                 (Resolves {| ok := false; text := Ok solo_error_text |})
                 (Rejects "Failed to fetch") (Rejects "Failed to fetch")
                 cart_state)),
   toast (snd (@quoteAndPay sample_runtime (Some (JStr "sl_abc"))
                 (Resolves {| ok := true; text := Ok quote_text |})
                 (Resolves {| ok := false; text := Ok solo_error_text |})
                 (Rejects "Failed to fetch") cart_state)),
   toast (snd (@quoteAndPay sample_runtime (Some (JStr "sl_abc"))
                 (Resolves {| ok := true; text := Ok quote_text |})
                 (Resolves {| ok := true; text := Ok "{}" |})
                 (Resolves {| ok := false; text := Ok solo_error_text |})
                 cart_state)))
  = (Some (@failure_toast sample_runtime solo_error_text),
     Some (@failure_toast sample_runtime solo_error_text),
     Some (@failure_toast sample_runtime solo_error_text)).
Proof. vm_compute. reflexivity. Qed.

Example quote_rejected_for_solo_minimum :
  toast (snd (@quoteAndPay sample_runtime (Some (JStr "sl_abc"))
                (Resolves {| ok := false; text := Ok solo_error_text |})
                (Rejects "Failed to fetch") (Rejects "Failed to fetch")
                cart_state))
  = Some {| msg := Some (JStr "This time has no nearby deliveries. Add at least 6 items or choose a discounted time.");
            type := Named "warn" |}.
Proof. vm_compute. reflexivity. Qed.

Example quote_not_found_is_generic :
  toast (snd (@quoteAndPay sample_runtime (Some (JStr "sl_abc"))
                (Resolves {| ok := true; text := Ok quote_text |})
                (Resolves {| ok := false; text := Ok not_found_text |})
                (Rejects "Failed to fetch") cart_state))
  = Some {| msg := Some (JStr "Quote/payment failed."); type := Named "error" |}.
Proof. vm_compute. reflexivity. Qed.

Example order_confirmed :
  (step (snd (@quoteAndPay sample_runtime (Some (JStr "sl_abc"))
                (Resolves {| ok := true; text := Ok quote_text |})
                (Resolves {| ok := true; text := Ok "{}" |})
                (Resolves {| ok := true; text := Ok "{}" |}) cart_state)),
   length (fst (@quoteAndPay sample_runtime (Some (JStr "sl_abc"))
                (Resolves {| ok := true; text := Ok quote_text |})
                (Resolves {| ok := true; text := Ok "{}" |})
                (Resolves {| ok := true; text := Ok "{}" |}) cart_state)))
  = (4, 3%nat).
Proof. vm_compute. reflexivity. Qed.

(** ** The rest of the flow: the database reset and the cart panel *)

Section DevHandlers.
Context `{Runtime}.

(** [clearDb(full = true)]. The response is read as JSON and its [ok] flag
    is not looked at. *)
Definition clearDb (full : bool) (answer : Fetch) : State -> list Request * State :=
  fun st0 =>
    try_catch_finally
      (res ← fetch {| method := "POST";
                      url := API_BASE +:+ "/dev/clear-db"
                             +:+ (if full then "?full=true" else "");
                      body := None |} answer;
       complete (res_json res);;
       update (notify_text
                 (if full then "Database cleared & slots reseeded."
                  else "Database cleared (soft).") "success"))
      (fun e => notify (Some (JStr "Failed to clear DB")) (Caught e))
      (setLoading false)
      (setLoading true st0).

End DevHandlers.

(** The nearest double of an integer. *)
Definition to_double (z : Z) : float :=
  SF2Prim (SpecFloat.binary_normalize prec emax z 0 false).

(** The double an integer result of an operation on doubles is: rounded,
    and an infinity from 2^1024 on. *)
Definition integer_result (z : Z) : number :=
  let r := round_double z in
  if Z.abs r <? 2 ^ 1024 then Int r
  else Dbl (if z <? 0 then neg_infinity else infinity).

(** [a * b] and [a + b] on numbers. *)
Definition times (a b : number) : number :=
  match a, b with
  | NaN, _ | _, NaN => NaN
  | Int x, Int y => integer_result (x * y)
  | Int x, Dbl g => Dbl (to_double x * g)%float
  | Dbl f, Int y => Dbl (f * to_double y)%float
  | Dbl f, Dbl g => Dbl (f * g)%float
  end.

Definition plus (a b : number) : number :=
  match a, b with
  | NaN, _ | _, NaN => NaN
  | Int x, Int y => integer_result (x + y)
  | Int x, Dbl g => Dbl (to_double x + g)%float
  | Dbl f, Int y => Dbl (f + to_double y)%float
  | Dbl f, Dbl g => Dbl (f + g)%float
  end.

(** A line of [CartPanel]: [{ name, qty, priceCents, line }]. *)
Record PanelLine : Type := {
  line_name : string;
  line_qty : option number;
  line_priceCents : Z;
  line : number
}.

(** [PRODUCTS.filter((p) => (items[p.id] || 0) > 0)] *)
Definition panelProducts (items : list (string * number)) : list Product :=
  filter (fun p => greater_than_0 (quantity_or_0 items (id p)) = true) PRODUCTS.

(** The [lines] of [CartPanel]. *)
Definition panelLines (items : list (string * number)) : list PanelLine :=
  map (fun p => {| line_name := name p;
                   line_qty := lookup_field (id p) items;
                   line_priceCents := priceCents p;
                   line := times (Int (priceCents p)) (quantity_or_0 items (id p)) |})
    (panelProducts items).

(** [lines.reduce((a, b) => a + b.line, 0)] *)
Definition panelTotal (lines : list PanelLine) : number :=
  foldl (fun a b => plus a (line b)) (Int 0) lines.

(** The product whose card an edit comes from. *)
Definition edit_product (e : Edit) : Product :=
  match e with
  | Decrement p | Change p _ | Increment p => p
  end.

(** ** Further properties of the checkout flow *)

Lemma lookup_with_property {A : Type} (s : list (string * A)) (k k' : string) (v : A) :
  lookup_field k (with_property s k' v) =
    if String.eqb k' k then Some v else lookup_field k s.
Proof.
  induction s as [| [k0 v0] rest IH]; simpl.
  - reflexivity.
  - destruct (String.eqb_spec k0 k') as [-> | Hne]; simpl.
    + destruct (String.eqb k' k); reflexivity.
    + rewrite IH. destruct (String.eqb_spec k0 k) as [-> | Hne'].
      * destruct (String.eqb_spec k' k) as [-> | _]; [contradiction | reflexivity].
      * reflexivity.
Qed.

Lemma with_property_keys {A : Type} (s : list (string * A)) (k : string) (v : A) :
  k ∈ map fst s → map fst (with_property s k v) = map fst s.
Proof.
  induction s as [| [k0 v0] rest IH]; simpl; intros Hin.
  - apply elem_of_nil in Hin. contradiction.
  - destruct (String.eqb_spec k0 k) as [-> | Hne]; simpl; [reflexivity |].
    f_equal. apply IH. apply elem_of_cons in Hin as [-> | Hin]; [contradiction | exact Hin].
Qed.

Lemma with_property_same {A : Type} (s : list (string * A)) (k : string) (v : A) :
  lookup_field k s = Some v → with_property s k v = s.
Proof.
  induction s as [| [k0 v0] rest IH]; simpl; [discriminate |].
  destruct (String.eqb_spec k0 k) as [-> | Hne].
  - intros [= ->]. reflexivity.
  - intros Hk. f_equal. apply IH, Hk.
Qed.

Lemma with_property_twice {A : Type} (s : list (string * A)) (k : string) (v v' : A) :
  with_property (with_property s k v) k v' = with_property s k v'.
Proof.
  induction s as [| [k0 v0] rest IH]; simpl.
  - rewrite String.eqb_refl. reflexivity.
  - destruct (String.eqb_spec k0 k) as [-> | Hne]; simpl.
    + rewrite String.eqb_refl. reflexivity.
    + destruct (String.eqb_spec k0 k); [contradiction |]. f_equal. exact IH.
Qed.

(** X7: an edit on the card of a product changes the quantity of that product
    alone: every other quantity stays, and so do the keys of [items] and
    their order when the product has a key. *)
Theorem edit_changes_one_quantity
    (e : Edit) (s : list (string * number)) (k : string) :
  k ≠ id (edit_product e) →
  lookup_field k (apply_edit s e) = lookup_field k s ∧
  (id (edit_product e) ∈ map fst s → map fst (apply_edit s e) = map fst s).
Proof.
  intros Hk. split.
  - destruct e as [p | p v | p]; simpl in *;
      unfold decrement, change, increment; rewrite lookup_with_property;
      (destruct (String.eqb_spec (id p) k) as [Heq | _];
       [symmetry in Heq; contradiction | reflexivity]).
  - intros Hin. destruct e as [p | p v | p]; simpl in *;
      apply with_property_keys, Hin.
Qed.

Definition cookie : Product :=
  {| id := "p_1"; name := "Classic Cookie"; priceCents := 300;
     unitFactor := 1; color := "#FFB703" |}.

Lemma edit_changes_one_quantity_witness :
  lookup_field "p_2" (apply_edit initial_items (Increment cookie))
    = lookup_field "p_2" initial_items ∧
  (id (edit_product (Increment cookie)) ∈ map fst initial_items →
   map fst (apply_edit initial_items (Increment cookie)) = map fst initial_items).
Proof.
  apply (edit_changes_one_quantity (Increment cookie) initial_items "p_2").
  discriminate.
Defined.

(** X8: on a quantity that is a count below 2^53, where every integer is a
    double, the plus button adds one, the minus button takes one off but
    stops at zero, and minus after plus gives the quantities back. (From
    2^53 on the sum is rounded: plus leaves 2^53 as it is.) *)
Theorem plus_and_minus_buttons
    (p : Product) (s : list (string * number)) (z : Z) :
  lookup_field (id p) s = Some (Int z) →
  0 ≤ z →
  z < 9007199254740992 →
  lookup_field (id p) (increment p s) = Some (Int (z + 1)) ∧
  lookup_field (id p) (decrement p s) = Some (Int (Z.max 0 (z - 1))) ∧
  decrement p (increment p s) = s.
Proof.
  intros Hk Hz Hsafe.
  assert (Hq : quantity_or_0 s (id p) = Int z).
  { unfold quantity_or_0. rewrite Hk. simpl.
    destruct (Z.eqb_spec z 0) as [-> | _]; reflexivity. }
  assert (Hplus : plus_one (Int z) = Int (z + 1)).
  { simpl. rewrite round_double_exact by lia. reflexivity. }
  assert (Hminus : minus_one (Int z) = Int (z - 1)).
  { simpl. rewrite round_double_exact by lia. reflexivity. }
  unfold increment, decrement.
  rewrite !lookup_with_property, !String.eqb_refl, Hq, Hplus, Hminus.
  split; [reflexivity |]. split; [reflexivity |].
  assert (Hq' : quantity_or_0 (with_property s (id p) (Int (z + 1))) (id p)
                = Int (z + 1)).
  { unfold quantity_or_0. rewrite lookup_with_property, String.eqb_refl. simpl.
    destruct (Z.eqb_spec (z + 1) 0); [lia | reflexivity]. }
  rewrite Hq', with_property_twice. simpl.
  rewrite round_double_exact by lia.
  replace (Z.max 0 (z + 1 - 1)) with z by lia.
  apply with_property_same, Hk.
Qed.

Lemma plus_and_minus_buttons_witness :
  lookup_field (id cookie) (increment cookie initial_items) = Some (Int (2 + 1)) ∧
  lookup_field (id cookie) (decrement cookie initial_items)
    = Some (Int (Z.max 0 (2 - 1))) ∧
  decrement cookie (increment cookie initial_items) = initial_items.
Proof.
  apply (plus_and_minus_buttons cookie initial_items 2); [reflexivity | lia | lia].
Defined.

(** At 2^53 the plus button changes nothing, and minus after plus does not
    give the quantity back. *)
Example plus_at_2_53 :
  (lookup_field "p_1"
     (increment cookie (change cookie "9007199254740992" initial_items)),
   lookup_field "p_1"
     (decrement cookie
        (increment cookie (change cookie "9007199254740992" initial_items))))
  = (Some (Int 9007199254740992), Some (Int 9007199254740991)).
Proof. vm_compute. reflexivity. Qed.

Example minus_stops_at_zero :
  lookup_field "p_3"
    (decrement {| id := "p_3"; name := "Party Box (6)"; priceCents := 1600;
                  unitFactor := 6; color := "#8ECAE6" |} initial_items)
  = Some (Int 0).
Proof. reflexivity. Qed.

(** *** The cart panel and the cart request *)

(** The quantities after a series of edits, from the first render on. *)
Definition edited (edits : list Edit) : list (string * number) :=
  foldl apply_edit initial_items edits.

(** The count a quantity stands for in the panel: NaN counts as nothing. *)
Definition count_value (n : number) : Z :=
  match n with
  | Int z => z
  | _ => 0
  end.

Lemma edits_keep_keys (edits : list Edit) :
  Forall (fun e => edit_product e ∈ PRODUCTS) edits →
  map fst (edited edits) = map id PRODUCTS.
Proof.
  unfold edited.
  assert (Hinit : map fst initial_items = map id PRODUCTS) by reflexivity.
  revert Hinit. generalize initial_items.
  induction edits as [| e edits IH]; intros s Hs Hall; simpl; [exact Hs |].
  apply Forall_cons in Hall as [He Hall].
  apply IH; [| exact Hall]. rewrite <- Hs.
  assert (Hin : id (edit_product e) ∈ map fst s).
  { rewrite Hs. apply list_elem_of_In, in_map, list_elem_of_In, He. }
  destruct e as [p | p v | p]; simpl in *; apply with_property_keys, Hin.
Qed.

Lemma count_cases (q : number) :
  count_or_NaN q → q = NaN ∨ q = Int 0 ∨ ∃ p, q = Int (Z.pos p).
Proof.
  intros [-> | (z & -> & Hz)]; [left; reflexivity |].
  destruct z as [| p | p]; [right; left; reflexivity | right; right; eauto | lia].
Qed.

Lemma integer_result_exact (z : Z) :
  Z.abs z ≤ 9007199254740992 → integer_result z = Int z.
Proof.
  intros Hz. unfold integer_result. rewrite (round_double_exact z Hz).
  assert (Hbig : 9007199254740992 < 2 ^ 1024) by (vm_compute; reflexivity).
  destruct (Z.ltb_spec (Z.abs z) (2 ^ 1024)); [reflexivity | lia].
Qed.

Lemma times_exact (x y : Z) :
  Z.abs (x * y) ≤ 9007199254740992 → times (Int x) (Int y) = Int (x * y).
Proof. apply integer_result_exact. Qed.

Lemma plus_exact (x y : Z) :
  Z.abs (x + y) ≤ 9007199254740992 → plus (Int x) (Int y) = Int (x + y).
Proof. apply integer_result_exact. Qed.

Local Arguments times : simpl never.
Local Arguments plus : simpl never.

Lemma panel_of_three (q1 q2 q3 : number) :
  count_or_NaN q1 → count_or_NaN q2 → count_or_NaN q3 →
  count_value q1 ≤ 1000000000000 →
  count_value q2 ≤ 1000000000000 →
  count_value q3 ≤ 1000000000000 →
  cartLines [ ("p_1", q1); ("p_2", q2); ("p_3", q3) ] =
    map (fun p => (id p, quantity_or_0 [ ("p_1", q1); ("p_2", q2); ("p_3", q3) ] (id p)))
      (panelProducts [ ("p_1", q1); ("p_2", q2); ("p_3", q3) ]) ∧
  panelTotal (panelLines [ ("p_1", q1); ("p_2", q2); ("p_3", q3) ]) =
    Int (300 * count_value q1 + 350 * count_value q2 + 1600 * count_value q3) ∧
  Int (300 * count_value q1 + 350 * count_value q2 + 1600 * count_value q3) =
    Int (foldr (fun p acc =>
                  priceCents p
                  * count_value
                      (quantity_or_0 [ ("p_1", q1); ("p_2", q2); ("p_3", q3) ] (id p))
                  + acc)
           0 PRODUCTS).
Proof.
  intros H1 H2 H3 B1 B2 B3.
  destruct (count_cases q1 H1) as [-> | [-> | [p1 ->]]],
           (count_cases q2 H2) as [-> | [-> | [p2 ->]]],
           (count_cases q3 H3) as [-> | [-> | [p3 ->]]];
    cbn [count_value] in B1, B2, B3;
    (split; [reflexivity |]);
    (split;
     [ unfold panelTotal, panelLines; simpl; unfold quantity_or_0; simpl;
       rewrite ?times_exact by lia; rewrite ?plus_exact by lia; f_equal; lia
     | unfold quantity_or_0; simpl; f_equal; lia ]).
Qed.

(** X10: what the cart panel shows is what [createCart] sends. After any edits
    on the cards of the three products that leave no quantity above 10^12
    (so that every product and sum below is a double), the lines of the
    request are the products the panel lists, in the same order and with
    the same quantities; the panel's subtotal is the sum of price times
    quantity over the products, a quantity that is NaN counting as nothing;
    and the panel has as many lines as the request, so it is empty exactly
    when nothing would be sent. *)
Theorem panel_shows_what_createCart_sends (edits : list Edit) :
  Forall (fun e => edit_product e ∈ PRODUCTS) edits →
  quantities (fun q => count_value q ≤ 1000000000000) (edited edits) →
  cartLines (edited edits) =
    map (fun p => (id p, quantity_or_0 (edited edits) (id p)))
      (panelProducts (edited edits)) ∧
  panelTotal (panelLines (edited edits)) =
    Int (foldr (fun p acc =>
                  priceCents p * count_value (quantity_or_0 (edited edits) (id p)) + acc)
           0 PRODUCTS) ∧
  (length (panelLines (edited edits)) = length (cartLines (edited edits))).
Proof.
  intros Hall Hbound.
  pose proof (edits_keep_keys edits Hall) as Hkeys.
  destruct (edits_keep_quantities edits) as [Hq _]. fold (edited edits) in Hq.
  destruct (edited edits) as [| [k1 q1] [| [k2 q2] [| [k3 q3] [| ? ?]]]];
    try discriminate Hkeys.
  simpl in Hkeys. injection Hkeys as -> -> ->.
  unfold quantities in Hq, Hbound.
  apply Forall_cons in Hq as [Hq1 Hq].
  apply Forall_cons in Hq as [Hq2 Hq].
  apply Forall_cons in Hq as [Hq3 _]. simpl in Hq1, Hq2, Hq3.
  apply Forall_cons in Hbound as [B1 Hbound].
  apply Forall_cons in Hbound as [B2 Hbound].
  apply Forall_cons in Hbound as [B3 _]. simpl in B1, B2, B3.
  destruct (panel_of_three q1 q2 q3 Hq1 Hq2 Hq3 B1 B2 B3) as (Hlines & Htotal & Hsum).
  split; [exact Hlines |]. split.
  - rewrite Htotal. exact Hsum.
  - rewrite Hlines. unfold panelLines. rewrite !length_map. reflexivity.
Qed.

Lemma panel_shows_what_createCart_sends_witness :
  cartLines (edited [Increment cookie; Change cookie ".5"]) =
    map (fun p => (id p, quantity_or_0 (edited [Increment cookie; Change cookie ".5"]) (id p)))
      (panelProducts (edited [Increment cookie; Change cookie ".5"])) ∧
  panelTotal (panelLines (edited [Increment cookie; Change cookie ".5"])) =
    Int (foldr (fun p acc =>
                  priceCents p
                  * count_value (quantity_or_0
                                   (edited [Increment cookie; Change cookie ".5"]) (id p))
                  + acc)
           0 PRODUCTS) ∧
  (length (panelLines (edited [Increment cookie; Change cookie ".5"])) =
   length (cartLines (edited [Increment cookie; Change cookie ".5"]))).
Proof.
  apply (panel_shows_what_createCart_sends [Increment cookie; Change cookie ".5"]).
  - repeat constructor.
  - replace (edited [Increment cookie; Change cookie ".5"])
      with [ ("p_1", NaN); ("p_2", Int 1); ("p_3", Int 0) ]
      by (vm_compute; reflexivity).
    unfold quantities.
    repeat (apply Forall_cons_2; [simpl; lia |]). apply Forall_nil_2.
Defined.

(** A quantity of 2^53 makes the subtotal round: 300 x 2^53 + 350 is shown
    as 300 x 2^53 + 512. *)
Example panel_total_rounds :
  panelTotal (panelLines (edited [Change cookie "9007199254740992"]))
  = Int (300 * 9007199254740992 + 512).
Proof. vm_compute. reflexivity. Qed.

Example panel_of_first_render :
  (map line_name (panelLines initial_items), panelTotal (panelLines initial_items))
  = (["Classic Cookie"; "Double Choc"], Int 950).
Proof. vm_compute. reflexivity. Qed.

(** *** What the handlers leave behind *)

Ltac run_handler :=
  unfold try_catch_finally, mbind, Task_bind, fetch, check_ok, complete, update,
    throw, mret, Task_ret; simpl.

Section OutcomeProperties.
Context `{Runtime}.

(** The JSON a request brings back, or the message of its failure: the
    fetch rejects, the response is not OK (its body is the message), or the
    body cannot be read as JSON. *)
Definition received (answer : Fetch) : result json :=
  match answer with
  | Rejects e => Throw e
  | Resolves res =>
      if ok res then res_json res
      else match text res with
           | Ok t => Throw t
           | Throw e => Throw e
           end
  end.

(** The property [k] of the JSON a request brings back. *)
Definition received_property (answer : Fetch) (k : string) : result value :=
  match received answer with
  | Ok data => property data k
  | Throw e => Throw e
  end.

(** X11: with a product in the cart, [createCart] sends one POST of the cart
    lines. It stores [data.cartId] and moves to step 2 when the answer is OK
    and brings JSON that is not [null]; on every failure it leaves the cart
    id and the step alone and notifies "Failed to create cart", the caught
    error standing where the type of the toast goes. [loading] ends false. *)
Theorem createCart_outcome (answer : Fetch) (st : State) :
  cartLines (items st) ≠ [] →
  createCart answer st =
    ([ {| method := "POST"; url := API_BASE +:+ "/cart";
          body := Some (cartBody (cartLines (items st))) |} ],
     match received_property answer "cartId" with
     | Ok cart =>
         setLoading false
           (setStep 2 (notify_text "Cart created." "success" (setCartId cart st)))
     | Throw e =>
         setLoading false (notify (Some (JStr "Failed to create cart")) (Caught e) st)
     end).
Proof.
  intros Hlines. unfold createCart, received_property, received. run_handler.
  destruct (cartLines (items st)) as [| l ls] eqn:Hl; [contradiction |]. simpl.
  destruct answer as [e | res]; simpl; [reflexivity |].
  destruct (ok res); simpl.
  - destruct (res_json res) as [data | e]; simpl; [| reflexivity].
    destruct (property data "cartId"); reflexivity.
  - destruct (text res); reflexivity.
Qed.

(** X12: with nothing in the cart, [createCart] sends nothing and only notifies
    "Add at least one product."; the step and the cart id stay. *)
Theorem createCart_empty_cart (answer : Fetch) (st : State) :
  cartLines (items st) = [] →
  createCart answer st =
    ([], setLoading false (notify_text "Add at least one product." "error" st)).
Proof.
  intros Hlines. unfold createCart. run_handler. rewrite Hlines. reflexivity.
Qed.

(** X13: with a cart, [fetchSlots] replaces the slot list by [data.slots], or by
    the empty list when the answer has none, clears the selection and
    reports the number of slots; on every failure it keeps the slots and
    the selection it had and notifies "Failed to fetch slots". *)
Theorem fetchSlots_outcome (range : IsoRange) (answer : Fetch) (st : State) :
  truthy (cartId st) = true →
  snd (fetchSlots range answer st) =
    match received_property answer "slots" with
    | Ok data_slots =>
        setLoading false
          (notify_text
             ("Loaded " +:+
              value_toString (or_else (optional_property data_slots "length")
                                      (Some (JNum (Int 0))))
              +:+ " slots.") "success"
             (setSelectedSlotId (Some JNull)
                (setSlots (if truthy data_slots
                           then default (JArr []) data_slots else JArr []) st)))
    | Throw e =>
        setLoading false (notify (Some (JStr "Failed to fetch slots")) (Caught e) st)
    end ∧
  (received_property answer "slots" = Ok None →
   slots (snd (fetchSlots range answer st)) = JArr [] ∧
   toast (snd (fetchSlots range answer st)) =
     Some {| msg := Some (JStr ("Loaded " +:+ Number_toString (Int 0) +:+ " slots."));
             type := Named "success" |}).
Proof.
  intros Hcart.
  assert (Hmain : snd (fetchSlots range answer st) =
    match received_property answer "slots" with
    | Ok data_slots =>
        setLoading false
          (notify_text
             ("Loaded " +:+
              value_toString (or_else (optional_property data_slots "length")
                                      (Some (JNum (Int 0))))
              +:+ " slots.") "success"
             (setSelectedSlotId (Some JNull)
                (setSlots (if truthy data_slots
                           then default (JArr []) data_slots else JArr []) st)))
    | Throw e =>
        setLoading false (notify (Some (JStr "Failed to fetch slots")) (Caught e) st)
    end).
  { unfold fetchSlots, received_property, received. rewrite Hcart. run_handler.
    destruct answer as [e | res]; simpl; [reflexivity |].
    destruct (ok res); simpl.
    - destruct (res_json res) as [data | e]; simpl; [| reflexivity].
      destruct (property data "slots") as [v | e]; simpl; [| reflexivity].
      unfold or_else. destruct (truthy v); reflexivity.
    - destruct (text res); reflexivity. }
  split; [exact Hmain |].
  intros Hnone. rewrite Hmain, Hnone. split; reflexivity.
Qed.

(** X14: without a cart, [fetchSlots] and [quoteAndPay] send nothing and change
    nothing but the toast, which says "Create a cart first.". *)
Theorem no_cart_no_request
    (range : IsoRange) (slotId : value) (answer answerQ answerP answerW : Fetch)
    (st : State) :
  truthy (cartId st) = false →
  fetchSlots range answer st =
    ([], notify_text "Create a cart first." "error" st) ∧
  quoteAndPay slotId answerQ answerP answerW st =
    ([], notify_text "Create a cart first." "error" st).
Proof.
  intros Hcart. unfold fetchSlots, quoteAndPay. rewrite Hcart. split; reflexivity.
Qed.

(** X15: when the quote, the payment intent and the webhook are all answered OK,
    [quoteAndPay] has sent these three requests in this order, the last two
    with the [quoteId] of the quote; it holds the quote and the slot, shows
    "Order confirmed!" and is at step 4. *)
Theorem quoteAndPay_confirms_order
    (st : State) (slotId quoteId : value) (txt : string) (q : json)
    (textP textW : result string) :
  truthy (cartId st) = true →
  JSON_parse txt = Ok q →
  property q "quoteId" = Ok quoteId →
  quoteAndPay slotId
    (Resolves {| ok := true; text := Ok txt |})
    (Resolves {| ok := true; text := textP |})
    (Resolves {| ok := true; text := textW |}) st =
  ([ quoteRequest st slotId; paymentRequest quoteId; webhookRequest quoteId ],
   setLoading false
     (setStep 4
        (notify_text "Order confirmed! 🎉" "success"
           (setQuote (Some q) (setSelectedSlotId slotId st))))).
Proof.
  intros Hcart Hq Hid. unfold quoteAndPay, quoteAndPay_try. rewrite Hcart.
  run_handler. rewrite Hq. simpl. rewrite Hid. reflexivity.
Qed.

(** The quote as [quoteAndPay] reads it: the parsed body of an OK answer,
    or the message of the failure. *)
Definition quote_received (answerQ : Fetch) : result json :=
  match answerQ with
  | Rejects e => Throw e
  | Resolves res =>
      match text res with
      | Throw e => Throw e
      | Ok txt => if ok res then JSON_parse txt else Throw txt
      end
  end.

Ltac quoteAndPay_scenarios answerQ answerP answerW fin :=
  destruct answerQ as [? | resQ]; simpl; [fin |];
  destruct (text resQ) as [txt | ?]; simpl; [| fin];
  destruct (ok resQ); simpl; [| fin];
  destruct (JSON_parse txt) as [q | ?]; simpl; [| fin];
  destruct (property q "quoteId") as [quoteId | ?]; simpl; [| fin];
  destruct answerP as [? | resP]; simpl; [fin |];
  destruct (ok resP); simpl; [| destruct (text resP); simpl; fin];
  destruct answerW as [? | resW]; simpl; [fin |];
  destruct (ok resW); simpl; [fin |];
  destruct (text resW); simpl; fin.

(** X16: however [quoteAndPay] ends, it leaves the cart id, the quantities, the
    position and the slot list as they were, and [loading] false. It moves
    to step 4 only when nothing failed. Once the quote has come back and
    parsed, the quote and the slot stay stored even if the payment intent or
    the webhook fails afterwards; if the quote itself failed, the quote and
    the selection are the old ones. *)
Theorem quoteAndPay_keeps_and_stores
    (st : State) (slotId : value) (answerQ answerP answerW : Fetch) :
  truthy (cartId st) = true →
  cartId (snd (quoteAndPay slotId answerQ answerP answerW st)) = cartId st ∧
  items (snd (quoteAndPay slotId answerQ answerP answerW st)) = items st ∧
  pos (snd (quoteAndPay slotId answerQ answerP answerW st)) = pos st ∧
  slots (snd (quoteAndPay slotId answerQ answerP answerW st)) = slots st ∧
  loading (snd (quoteAndPay slotId answerQ answerP answerW st)) = false ∧
  step (snd (quoteAndPay slotId answerQ answerP answerW st)) =
    match snd (quoteAndPay_try st slotId answerQ answerP answerW (setLoading true st)) with
    | Ok _ => 4
    | Throw _ => step st
    end ∧
  quote (snd (quoteAndPay slotId answerQ answerP answerW st)) =
    match quote_received answerQ with
    | Ok q => Some q
    | Throw _ => quote st
    end ∧
  selectedSlotId (snd (quoteAndPay slotId answerQ answerP answerW st)) =
    match quote_received answerQ with
    | Ok _ => slotId
    | Throw _ => selectedSlotId st
    end.
Proof.
  intros Hcart. unfold quoteAndPay, quoteAndPay_try, quote_received.
  rewrite Hcart. run_handler.
  quoteAndPay_scenarios answerQ answerP answerW
    ltac:(rewrite ?(proj2 (quoteAndPay_catch_toast _ _)); simpl; auto 10).
Qed.

(** X17: [clearDb] does not look at the status of the response: an answer that is
    not OK but carries JSON is reported as "Database cleared". Whatever the
    answer, it sends one POST without a body and leaves the step, the cart
    id, the quantities, the slots and the quote of the flow as they were. *)
Theorem clearDb_ignores_status
    (full : bool) (txt : string) (data : json) (answer : Fetch) (st : State) :
  JSON_parse txt = Ok data →
  snd (clearDb full (Resolves {| ok := false; text := Ok txt |}) st) =
    setLoading false
      (notify_text (if full then "Database cleared & slots reseeded."
                    else "Database cleared (soft).") "success" st) ∧
  fst (clearDb full answer st) =
    [ {| method := "POST";
         url := API_BASE +:+ "/dev/clear-db" +:+ (if full then "?full=true" else "");
         body := None |} ] ∧
  step (snd (clearDb full answer st)) = step st ∧
  cartId (snd (clearDb full answer st)) = cartId st ∧
  items (snd (clearDb full answer st)) = items st ∧
  slots (snd (clearDb full answer st)) = slots st ∧
  quote (snd (clearDb full answer st)) = quote st ∧
  loading (snd (clearDb full answer st)) = false.
Proof.
  intros Hparse. split.
  - unfold clearDb, res_json. run_handler. rewrite Hparse. reflexivity.
  - unfold clearDb. run_handler.
    destruct answer as [e | res]; simpl; [auto 10 |].
    destruct (res_json res); simpl; auto 10.
Qed.

(** X18: [resetAll] puts the flow back at its first render, except for
    [loading] and the toast, which it does not touch. After it, the slot
    listing and the quote send nothing, and [createCart] sends the two
    products of the first render. *)
Theorem resetAll_restarts
    (st : State) (range : IsoRange) (slotId : value)
    (answer answerQ answerP answerW : Fetch) :
  resetAll st = setToast (toast st) (setLoading (loading st) initial) ∧
  resetAll (resetAll st) = resetAll st ∧
  fst (fetchSlots range answer (resetAll st)) = [] ∧
  fst (quoteAndPay slotId answerQ answerP answerW (resetAll st)) = [] ∧
  fst (createCart answer (resetAll st)) =
    [ {| method := "POST"; url := API_BASE +:+ "/cart";
         body := Some (cartBody [ ("p_1", Int 2); ("p_2", Int 1) ]) |} ].
Proof.
  split; [reflexivity |]. split; [reflexivity |].
  split; [reflexivity |]. split; [reflexivity |].
  rewrite createCart_request. reflexivity.
Qed.

End OutcomeProperties.

Lemma createCart_outcome_witness :
  @createCart sample_runtime
    (Resolves {| ok := false; text := Ok not_found_text |}) initial =
    ([ {| method := "POST"; url := @API_BASE sample_runtime +:+ "/cart";
          body := Some (cartBody (cartLines (items initial))) |} ],
     match @received_property sample_runtime
             (Resolves {| ok := false; text := Ok not_found_text |}) "cartId" with
     | Ok cart =>
         setLoading false
           (setStep 2 (notify_text "Cart created." "success" (setCartId cart initial)))
     | Throw e =>
         setLoading false
           (notify (Some (JStr "Failed to create cart")) (Caught e) initial)
     end).
Proof.
  apply (@createCart_outcome sample_runtime
           (Resolves {| ok := false; text := Ok not_found_text |}) initial).
  discriminate.
Defined.

Definition empty_cart_state : State :=
  setItems (fun _ => [ ("p_1", Int 0); ("p_2", NaN); ("p_3", Int 0) ]) initial.

Lemma createCart_empty_cart_witness :
  @createCart sample_runtime (Rejects "Failed to fetch") empty_cart_state =
    ([], setLoading false
           (notify_text "Add at least one product." "error" empty_cart_state)).
Proof.
  apply (@createCart_empty_cart sample_runtime (Rejects "Failed to fetch")
           empty_cart_state).
  reflexivity.
Defined.

Definition sample_range : IsoRange :=
  {| fromISO := "2025-11-05T10:00:00.123Z"; toISO := "2025-11-08T10:00:00.123Z" |}.

Lemma fetchSlots_outcome_witness :
  snd (@fetchSlots sample_runtime sample_range
         (Resolves {| ok := true; text := Ok quote_text |}) cart_state) =
    match @received_property sample_runtime
            (Resolves {| ok := true; text := Ok quote_text |}) "slots" with
    | Ok data_slots =>
        setLoading false
          (notify_text
             ("Loaded " +:+
              @value_toString sample_runtime
                (or_else (optional_property data_slots "length")
                         (Some (JNum (Int 0))))
              +:+ " slots.") "success"
             (setSelectedSlotId (Some JNull)
                (setSlots (if truthy data_slots
                           then default (JArr []) data_slots else JArr [])
                   cart_state)))
    | Throw e =>
        setLoading false
          (notify (Some (JStr "Failed to fetch slots")) (Caught e) cart_state)
    end ∧
  (@received_property sample_runtime
     (Resolves {| ok := true; text := Ok quote_text |}) "slots" = Ok None →
   slots (snd (@fetchSlots sample_runtime sample_range
                 (Resolves {| ok := true; text := Ok quote_text |}) cart_state))
     = JArr [] ∧
   toast (snd (@fetchSlots sample_runtime sample_range
                 (Resolves {| ok := true; text := Ok quote_text |}) cart_state)) =
     Some {| msg := Some (JStr ("Loaded " +:+ @Number_toString sample_runtime (Int 0)
                                +:+ " slots."));
             type := Named "success" |}).
Proof.
  apply (@fetchSlots_outcome sample_runtime sample_range
           (Resolves {| ok := true; text := Ok quote_text |}) cart_state).
  reflexivity.
Defined.

Example fetchSlots_without_slots :
  (slots (snd (@fetchSlots sample_runtime sample_range
                 (Resolves {| ok := true; text := Ok quote_text |}) cart_state)),
   toast (snd (@fetchSlots sample_runtime sample_range
                 (Resolves {| ok := true; text := Ok quote_text |}) cart_state)))
  = (JArr [], Some {| msg := Some (JStr "Loaded 0 slots."); type := Named "success" |}).
Proof. vm_compute. reflexivity. Qed.

Lemma no_cart_no_request_witness :
  @fetchSlots sample_runtime sample_range (Rejects "Failed to fetch") initial =
    ([], notify_text "Create a cart first." "error" initial) ∧
  @quoteAndPay sample_runtime (Some (JStr "sl_abc")) (Rejects "Failed to fetch")
    (Rejects "Failed to fetch") (Rejects "Failed to fetch") initial =
    ([], notify_text "Create a cart first." "error" initial).
Proof.
  apply (@no_cart_no_request sample_runtime sample_range (Some (JStr "sl_abc"))
           (Rejects "Failed to fetch") (Rejects "Failed to fetch")
           (Rejects "Failed to fetch") (Rejects "Failed to fetch") initial).
  reflexivity.
Defined.

Lemma quoteAndPay_confirms_order_witness :
  @quoteAndPay sample_runtime (Some (JStr "sl_abc"))
    (Resolves {| ok := true; text := Ok quote_text |})
    (Resolves {| ok := true; text := Ok "{}" |})
    (Resolves {| ok := true; text := Ok "{}" |}) cart_state =
  ([ @quoteRequest sample_runtime cart_state (Some (JStr "sl_abc"));
     @paymentRequest sample_runtime (Some (JStr "q_9f8e7d6c"));
     @webhookRequest sample_runtime (Some (JStr "q_9f8e7d6c")) ],
   setLoading false
     (setStep 4
        (notify_text "Order confirmed! 🎉" "success"
           (setQuote (Some quote_json)
              (setSelectedSlotId (Some (JStr "sl_abc")) cart_state))))).
Proof.
  apply (@quoteAndPay_confirms_order sample_runtime cart_state
           (Some (JStr "sl_abc")) (Some (JStr "q_9f8e7d6c")) quote_text quote_json
           (Ok "{}") (Ok "{}")); reflexivity.
Defined.

Lemma quoteAndPay_keeps_and_stores_witness :
  cartId (snd (@quoteAndPay sample_runtime (Some (JStr "sl_abc"))
                 (Resolves {| ok := true; text := Ok quote_text |})
                 (Resolves {| ok := false; text := Ok not_found_text |})
                 (Rejects "Failed to fetch") cart_state)) = cartId cart_state ∧
  items (snd (@quoteAndPay sample_runtime (Some (JStr "sl_abc"))
                (Resolves {| ok := true; text := Ok quote_text |})
                (Resolves {| ok := false; text := Ok not_found_text |})
                (Rejects "Failed to fetch") cart_state)) = items cart_state ∧
  pos (snd (@quoteAndPay sample_runtime (Some (JStr "sl_abc"))
              (Resolves {| ok := true; text := Ok quote_text |})
              (Resolves {| ok := false; text := Ok not_found_text |})
              (Rejects "Failed to fetch") cart_state)) = pos cart_state ∧
  slots (snd (@quoteAndPay sample_runtime (Some (JStr "sl_abc"))
                (Resolves {| ok := true; text := Ok quote_text |})
                (Resolves {| ok := false; text := Ok not_found_text |})
                (Rejects "Failed to fetch") cart_state)) = slots cart_state ∧
  loading (snd (@quoteAndPay sample_runtime (Some (JStr "sl_abc"))
                  (Resolves {| ok := true; text := Ok quote_text |})
                  (Resolves {| ok := false; text := Ok not_found_text |})
                  (Rejects "Failed to fetch") cart_state)) = false ∧
  step (snd (@quoteAndPay sample_runtime (Some (JStr "sl_abc"))
               (Resolves {| ok := true; text := Ok quote_text |})
               (Resolves {| ok := false; text := Ok not_found_text |})
               (Rejects "Failed to fetch") cart_state)) =
    match snd (@quoteAndPay_try sample_runtime cart_state (Some (JStr "sl_abc"))
                 (Resolves {| ok := true; text := Ok quote_text |})
                 (Resolves {| ok := false; text := Ok not_found_text |})
                 (Rejects "Failed to fetch") (setLoading true cart_state)) with
    | Ok _ => 4
    | Throw _ => step cart_state
    end ∧
  quote (snd (@quoteAndPay sample_runtime (Some (JStr "sl_abc"))
                (Resolves {| ok := true; text := Ok quote_text |})
                (Resolves {| ok := false; text := Ok not_found_text |})
                (Rejects "Failed to fetch") cart_state)) =
    match @quote_received sample_runtime
            (Resolves {| ok := true; text := Ok quote_text |}) with
    | Ok q => Some q
    | Throw _ => quote cart_state
    end ∧
  selectedSlotId (snd (@quoteAndPay sample_runtime (Some (JStr "sl_abc"))
                         (Resolves {| ok := true; text := Ok quote_text |})
                         (Resolves {| ok := false; text := Ok not_found_text |})
                         (Rejects "Failed to fetch") cart_state)) =
    match @quote_received sample_runtime
            (Resolves {| ok := true; text := Ok quote_text |}) with
    | Ok _ => Some (JStr "sl_abc")
    | Throw _ => selectedSlotId cart_state
    end.
Proof.
  apply (@quoteAndPay_keeps_and_stores sample_runtime cart_state
           (Some (JStr "sl_abc"))
           (Resolves {| ok := true; text := Ok quote_text |})
           (Resolves {| ok := false; text := Ok not_found_text |})
           (Rejects "Failed to fetch")).
  reflexivity.
Defined.

Example payment_failure_keeps_quote :
  (quote (snd (@quoteAndPay sample_runtime (Some (JStr "sl_abc"))
                 (Resolves {| ok := true; text := Ok quote_text |})
                 (Resolves {| ok := false; text := Ok not_found_text |})
                 (Rejects "Failed to fetch") cart_state)),
   step (snd (@quoteAndPay sample_runtime (Some (JStr "sl_abc"))
                (Resolves {| ok := true; text := Ok quote_text |})
                (Resolves {| ok := false; text := Ok not_found_text |})
                (Rejects "Failed to fetch") cart_state)))
  = (Some quote_json, 1).
Proof. vm_compute. reflexivity. Qed.

Lemma clearDb_ignores_status_witness :
  snd (@clearDb sample_runtime true
         (Resolves {| ok := false; text := Ok not_found_text |}) cart_state) =
    setLoading false
      (notify_text (if true then "Database cleared & slots reseeded."
                    else "Database cleared (soft).") "success" cart_state) ∧
  fst (@clearDb sample_runtime true (Rejects "Failed to fetch") cart_state) =
    [ {| method := "POST";
         url := @API_BASE sample_runtime +:+ "/dev/clear-db"
                +:+ (if true then "?full=true" else "");
         body := None |} ] ∧
  step (snd (@clearDb sample_runtime true (Rejects "Failed to fetch") cart_state))
    = step cart_state ∧
  cartId (snd (@clearDb sample_runtime true (Rejects "Failed to fetch") cart_state))
    = cartId cart_state ∧
  items (snd (@clearDb sample_runtime true (Rejects "Failed to fetch") cart_state))
    = items cart_state ∧
  slots (snd (@clearDb sample_runtime true (Rejects "Failed to fetch") cart_state))
    = slots cart_state ∧
  quote (snd (@clearDb sample_runtime true (Rejects "Failed to fetch") cart_state))
    = quote cart_state ∧
  loading (snd (@clearDb sample_runtime true (Rejects "Failed to fetch") cart_state))
    = false.
Proof.
  apply (@clearDb_ignores_status sample_runtime true not_found_text not_found_json
           (Rejects "Failed to fetch") cart_state).
  reflexivity.
Defined.



End Checkout.

(** * The engine contract: confirmation *)
Module Ledger.

(** Modelled from the spec: the confirmation state of a Quote (section 3);
    the engine that holds the quotes is not among the sources. *)
Inductive QuoteState : Type :=
| pending
| confirmed.

(** Modelled from the spec: the amounts snapshot of a Quote (section 3). *)
Record Amounts : Type := {
  subtotalCents : Z;
  deliveryFeeCents : Z;
  discountCents : Z;
  totalCents : Z
}.

(** Modelled from the spec: a Quote (section 3), stored under its quoteId. *)
Record Quote : Type := {
  cartId : string;
  slotId : string;
  locationId : string;
  amounts : Amounts;
  lockedUntil : Z;
  state : QuoteState
}.

(** Modelled from the spec: what the Capacity & Confirmation Ledger works
    on (sections 2 and 4.6): the stored quotes by quoteId, and the [used]
    capacity counter of each slot by slotId. *)
Record Engine : Type := {
  quotes : gmap string Quote;
  used : gmap string N
}.

(** Modelled from the spec: how [confirm] ends (section 4.6): success, or
    NotFound for an unknown quoteId. *)
Inductive Outcome : Type :=
| Success (e : Engine)
| NotFound.

(** Modelled from the spec: the [used] counter of a slot; a slot that no
    confirmation touched has used nothing. *)
Definition slot_used (e : Engine) (slot : string) : N :=
  default 0%N (used e !! slot).

(** Modelled from the spec: a quote with its state flipped to confirmed;
    its amounts stay (section 3). *)
Definition confirmed_quote (q : Quote) : Quote :=
  {| cartId := cartId q; slotId := slotId q; locationId := locationId q;
     amounts := amounts q; lockedUntil := lockedUntil q; state := confirmed |}.

Section Confirm.

(** The amount one confirmation adds to [used]: the delivery-unit count of
    the quote's cart, or one, as the implementer decides (sections 4.6, 9). *)
Variable units : Quote -> N.

(** Modelled from the spec: operation [confirm(quoteId)] of section 4.6. It
    looks up the Quote; an unknown quoteId fails with NotFound; a confirmed
    quote gives success without side effects; a pending one increments the
    [used] capacity of its slot and flips its state, in one step.
    [lockedUntil] is not consulted. *)
Definition confirm (quoteId : string) (e : Engine) : Outcome :=
  match quotes e !! quoteId with
  | None => NotFound
  | Some q =>
      match state q with
      | confirmed => Success e
      | pending =>
          Success
            {| quotes := <[quoteId := confirmed_quote q]> (quotes e);
               used := <[slotId q := (slot_used e (slotId q) + units q)%N]> (used e) |}
      end
  end.

(** C1: [confirm] is idempotent per quoteId. An unknown quoteId fails with
    NotFound. For a known one the first call succeeds; it leaves the quote
    confirmed, adds the per-confirmation amount to the [used] counter of the
    quote's slot when the quote was pending and nothing when it was
    confirmed already, and touches no other slot and no other quote. Every
    later call succeeds and returns the engine as it found it. *)
Theorem confirm_idempotent (quoteId : string) (e : Engine) :
  match quotes e !! quoteId with
  | None => confirm quoteId e = NotFound
  | Some q =>
      ∃ e1,
        confirm quoteId e = Success e1 ∧
        confirm quoteId e1 = Success e1 ∧
        quotes e1 !! quoteId = Some (confirmed_quote q) ∧
        slot_used e1 (slotId q) =
          (slot_used e (slotId q)
           + match state q with pending => units q | confirmed => 0 end)%N ∧
        (∀ slot, slot ≠ slotId q → slot_used e1 slot = slot_used e slot) ∧
        (∀ other, other ≠ quoteId → quotes e1 !! other = quotes e !! other)
  end.
Proof.
  destruct (quotes e !! quoteId) as [q |] eqn:Hq.
  - destruct q as [c s l a t st]. destruct st.
    + eexists. split; [unfold confirm; rewrite Hq; reflexivity |].
      simpl. split; [| split; [| split; [| split]]].
      * unfold confirm. simpl. rewrite lookup_insert_eq. reflexivity.
      * apply lookup_insert_eq.
      * unfold slot_used at 1. simpl. rewrite lookup_insert_eq. reflexivity.
      * intros slot Hslot. unfold slot_used at 1. simpl.
        rewrite lookup_insert_ne by congruence. reflexivity.
      * intros other Hother. simpl. apply lookup_insert_ne. congruence.
    + exists e. unfold confirm. rewrite Hq. simpl.
      split; [reflexivity |]. split; [reflexivity |].
      split; [reflexivity |]. split; [lia |]. split; reflexivity.
  - unfold confirm. rewrite Hq. reflexivity.
Qed.

End Confirm.

Definition sample_quote : Quote :=
  {| cartId := "c_a1b2c3"; slotId := "sl_abc"; locationId := "loc_123";
     amounts := {| subtotalCents := 950; deliveryFeeCents := 396;
                   discountCents := 54; totalCents := 1346 |};
     lockedUntil := 1762337700000; state := pending |}.

Definition sample_engine : Engine :=
  {| quotes := {[ "q_9f8e7d6c" := sample_quote ]};
     used := {[ "sl_abc" := 8%N ]} |}.

Example confirm_twice_counts_once :
  match confirm (fun _ => 1%N) "q_9f8e7d6c" sample_engine with
  | Success e1 =>
      match confirm (fun _ => 1%N) "q_9f8e7d6c" e1 with
      | Success e2 => Some (slot_used e1 "sl_abc", slot_used e2 "sl_abc")
      | NotFound => None
      end
  | NotFound => None
  end = Some (9%N, 9%N).
Proof. vm_compute. reflexivity. Qed.

Example confirm_unknown :
  confirm (fun _ => 1%N) "q_unknown" sample_engine = NotFound.
Proof. vm_compute. reflexivity. Qed.

End Ledger.

(** * The engine contract: score and discount *)
Module Discount.

Local Open Scope R_scope.

(** Modelled from the spec: the ScoringParameters snapshot (section 3), with
    the fields the Score & Discount Calculator reads; the calculator is not
    among the sources. Numbers are real numbers here. *)
Record ScoringParameters : Type := {
  radiusM : R;
  t0Min : R;
  d0M : R;
  maxDiscount : R;
  k : R;
  sMin : R
}.

(** Modelled from the spec: a candidate neighbor as the Neighbor Finder
    returns it (section 4.1): a distance and a time gap in minutes. *)
Record Neighbor : Type := {
  distance : R;
  timeGapMinutes : R
}.

(** Modelled from the spec: the weight of a neighbor (section 4.2),
    [exp(-distance / d0M) * exp(-timeGapMinutes / t0Min)]. *)
Definition weight (p : ScoringParameters) (n : Neighbor) : R :=
  exp (- distance n / d0M p) * exp (- timeGapMinutes n / t0Min p).

(** Modelled from the spec: the score, the sum of the weights (section 4.2);
    zero when there is no neighbor. *)
Definition score (p : ScoringParameters) (neighbors : list Neighbor) : R :=
  fold_right (fun n acc => weight p n + acc) 0 neighbors.

(** Modelled from the spec: clamping to an interval (section 4.2). *)
Definition clamp (lo hi x : R) : R := Rmax lo (Rmin hi x).

(** Modelled from the spec: the discount of a score (section 4.2),
    [maxDiscount * (1 - exp(-k * score))] clamped to [0, maxDiscount]. *)
Definition discountOfScore (p : ScoringParameters) (s : R) : R :=
  clamp 0 (maxDiscount p) (maxDiscount p * (1 - exp (- (k p * s)))).

(** Modelled from the spec: the discount percentage of a slot with the
    given candidate neighbors (section 4.2). *)
Definition discountPct (p : ScoringParameters) (neighbors : list Neighbor) : R :=
  discountOfScore p (score p neighbors).

Lemma clamp_bounds (lo hi x : R) : lo <= hi -> lo <= clamp lo hi x <= hi.
Proof.
  intros Hle. unfold clamp. split.
  - apply Rmax_l.
  - apply Rmax_lub; [exact Hle | apply Rmin_l].
Qed.

Lemma clamp_inside (lo hi x : R) : lo <= x <= hi -> clamp lo hi x = x.
Proof.
  intros [Hlo Hhi]. unfold clamp.
  rewrite (Rmin_right hi x Hhi). apply Rmax_right, Hlo.
Qed.

Lemma score_nonnegative (p : ScoringParameters) (neighbors : list Neighbor) :
  0 <= score p neighbors.
Proof.
  induction neighbors as [| n ns IH]; simpl; [lra |].
  assert (0 < weight p n).
  { unfold weight. apply Rmult_lt_0_compat; apply exp_pos. }
  lra.
Qed.

(** C2: for a parameter snapshot whose [maxDiscount] is not negative and
    any list of candidate neighbors, the discount is
    [maxDiscount * (1 - exp(-k * score))] clamped to [0, maxDiscount]; it
    lies in [0, maxDiscount] for every score; and a score of zero, that of
    an empty list of neighbors, gives a discount of zero. *)
Theorem discountPct_clamped_curve
    (p : ScoringParameters) (neighbors : list Neighbor) :
  0 <= maxDiscount p ->
  discountPct p neighbors =
    Rmax 0 (Rmin (maxDiscount p)
              (maxDiscount p * (1 - exp (- (k p * score p neighbors))))) /\
  0 <= discountPct p neighbors <= maxDiscount p /\
  (forall s, 0 <= discountOfScore p s <= maxDiscount p) /\
  discountOfScore p 0 = 0 /\
  score p [] = 0 /\
  discountPct p [] = 0.
Proof.
  intros Hmax.
  assert (Hzero : discountOfScore p 0 = 0).
  { unfold discountOfScore. rewrite Rmult_0_r, Ropp_0, exp_0.
    replace (maxDiscount p * (1 - 1)) with 0 by lra.
    apply clamp_inside. lra. }
  split; [reflexivity |].
  split; [apply clamp_bounds, Hmax |].
  split; [intros s; apply clamp_bounds, Hmax |].
  split; [exact Hzero |].
  split; [reflexivity |].
  exact Hzero.
Qed.

Definition sample_parameters : ScoringParameters :=
  {| radiusM := 3000; t0Min := 30; d0M := 800; maxDiscount := 2 / 10;
     k := 1; sMin := 5 / 100 |}.

Definition sample_neighbors : list Neighbor :=
  [ {| distance := 200; timeGapMinutes := 10 |} ].

(** C2 on the scenario of the design: one stop 200 m and 10 minutes away. *)
Lemma discountPct_clamped_curve_witness :
  discountPct sample_parameters sample_neighbors =
    Rmax 0 (Rmin (maxDiscount sample_parameters)
              (maxDiscount sample_parameters
               * (1 - exp (- (k sample_parameters
                              * score sample_parameters sample_neighbors))))) /\
  0 <= discountPct sample_parameters sample_neighbors
    <= maxDiscount sample_parameters /\
  (forall s, 0 <= discountOfScore sample_parameters s
             <= maxDiscount sample_parameters) /\
  discountOfScore sample_parameters 0 = 0 /\
  score sample_parameters [] = 0 /\
  discountPct sample_parameters [] = 0.
Proof.
  apply (discountPct_clamped_curve sample_parameters sample_neighbors).
  simpl. lra.
Defined.

(** With [k] not negative the clamp does not act: the discount is the
    curve itself. *)
Lemma discountPct_curve (p : ScoringParameters) (neighbors : list Neighbor) :
  0 <= maxDiscount p -> 0 <= k p ->
  discountPct p neighbors =
    maxDiscount p * (1 - exp (- (k p * score p neighbors))).
Proof.
  intros Hmax Hk. unfold discountPct, discountOfScore.
  apply clamp_inside.
  assert (Hs := score_nonnegative p neighbors).
  assert (Hpos : 0 < exp (- (k p * score p neighbors))) by apply exp_pos.
  assert (Hle : exp (- (k p * score p neighbors)) <= 1).
  { rewrite <- exp_0.
    destruct (Req_dec (k p * score p neighbors) 0) as [-> | Hne].
    - rewrite Ropp_0. lra.
    - left. apply exp_increasing.
      assert (0 <= k p * score p neighbors) by (apply Rmult_le_pos; assumption).
      lra. }
  split.
  - apply Rmult_le_pos; lra.
  - rewrite <- (Rmult_1_r (maxDiscount p)) at 2.
    apply Rmult_le_compat_l; lra.
Qed.

End Discount.
